(** * GeoUtils.raster_tools: the [Raster] wrapper over rasterio

    A shallow embedding of [src/GeoUtils/raster_tools.py].  The module is a
    thin object-oriented facade: every geometric or I/O operation is delegated
    to rasterio, numpy or shapely.  The embedding has three layers:

    - Python values, exceptions and the few builtins the module uses
      ([int], sequence unpacking, slicing, [str.format]);
    - the external libraries as an interface ([Rasterio]): each operation is
      a function that returns a value or the exception it raises, so the
      properties below hold for every implementation of the interface;
    - the class [Raster] itself: a record for the instance attributes the
      code assigns by name, a finite map for the attributes mirrored with
      [setattr], and its methods written in a state-and-exception monad that
      also keeps a log of the calls that touch a dataset.

    Conventions.  Arguments have the types the docstrings give them
    ([filename] and [mode] are strings, [attrs] holds strings).  [assert] is
    executed, as it is unless the interpreter runs with [-O].  [Vector] is
    [GeoUtils.vector_tools.Vector], which the module only tests instances
    of; it is a type of the interface.  [__repr__] and the empty subclass
    [SatelliteImage] add no behaviour to the methods modelled here.

    A concrete instance of the interface ([Toy], an integer-grid raster
    library) provides handles to run the methods on. *)

From Stdlib Require Import ZArith QArith.
From stdpp Require Import gmap strings list pretty.

#[local] Set Warnings "-register-all".

Open Scope Z_scope.

(** ** Exceptions *)

Inductive exn_class :=
  | AssertionError
  | NotImplementedError
  | ValueError
  | AttributeError
  | TypeError
  | IndexError
  | OverflowError
  | LibraryError (name : string).

(** An exception: its class and its message. *)
Inductive exn := Raise (c : exn_class) (msg : string).

Definition exn_class_of (e : exn) : exn_class := let 'Raise c _ := e in c.

Inductive result (A : Type) :=
  | Ok (a : A)
  | Err (e : exn).
Arguments Ok {A} a.
Arguments Err {A} e.

Definition rbind {A B} (r : result A) (k : A -> result B) : result B :=
  match r with
  | Ok a => k a
  | Err e => Err e
  end.

Notation "'let?' x := r 'in' k" := (rbind r (fun x => k))
  (at level 10, x pattern, r at level 100, k at level 200).

Definition is_ok {A} (r : result A) : bool :=
  match r with Ok _ => true | Err _ => false end.

(** ** Python values *)

(** The value of a Python float: a finite float is a rational number. *)
Inductive pyfloat :=
  | Finite (q : Q)
  | Infinite (negative : bool)
  | NaN.

(** Values that attributes, arguments and dictionary entries hold.  [F] is
    the type of library objects the module only passes around (a CRS, an
    affine transform, a bound method, a polygon). *)
Inductive PyVal (F : Type) :=
  | VNone
  | VBool (b : bool)
  | VInt (z : Z)
  | VFloat (f : pyfloat)
  | VStr (s : string)
  | VTuple (l : list (PyVal F))
  | VList (l : list (PyVal F))
  | VForeign (x : F).
Arguments VNone {F}.
Arguments VBool {F} b.
Arguments VInt {F} z.
Arguments VFloat {F} f.
Arguments VStr {F} s.
Arguments VTuple {F} l.
Arguments VList {F} l.
Arguments VForeign {F} x.

(** [int(x)] for a float [x]: truncation toward zero. *)
Definition py_int (f : pyfloat) : result Z :=
  match f with
  | Finite q => Ok (Z.quot (Qnum q) (Z.pos (Qden q)))
  | Infinite _ => Err (Raise OverflowError "cannot convert float infinity to integer")
  | NaN => Err (Raise ValueError "cannot convert float NaN to integer")
  end.

(** A [rasterio.windows.Window]. *)
Record Window := mkWindow {
  col_off : pyfloat;
  row_off : pyfloat;
  width : pyfloat;
  height : pyfloat
}.

(** ** The I/O log *)

(** One entry per call that opens, creates, reads, writes, masks or
    resamples a dataset. *)
Inductive Event :=
  | EvOpenFile (filename : string)
  | EvMemoryFile
  | EvOpen
  | EvCreate
  | EvWrite
  | EvRead
  | EvMask
  | EvReproject.

(** ** The monad of methods *)

(** The state a method runs in: the object it is called on and the log. *)
Record St (S : Type) := mkSt { obj : S; trace : list Event }.
Arguments mkSt {S} obj trace.
Arguments obj {S} s.
Arguments trace {S} s.

Definition M (S A : Type) : Type := St S -> result A * St S.

Definition ret {S A} (a : A) : M S A := fun s => (Ok a, s).
Definition raise {S A} (e : exn) : M S A := fun s => (Err e, s).
Definition bind {S A B} (m : M S A) (k : A -> M S B) : M S B :=
  fun s => match m s with
           | (Ok a, s') => k a s'
           | (Err e, s') => (Err e, s')
           end.
Definition lift {S A} (r : result A) : M S A := fun s => (r, s).
Definition get_self {S} : M S S := fun s => (Ok (obj s), s).
Definition modify {S} (f : S -> S) : M S unit :=
  fun s => (Ok tt, mkSt (f (obj s)) (trace s)).
(** A library call that touches a dataset: logged, then its outcome. *)
Definition io {S A} (ev : Event) (r : result A) : M S A :=
  fun s => (r, mkSt (obj s) (trace s ++ [ev])).

Notation "'let*' x := m 'in' k" := (bind m (fun x => k))
  (at level 10, x pattern, m at level 100, k at level 200).
Notation "'run' m 'in' k" := (bind m (fun _ => k))
  (at level 10, m at level 100, k at level 200).

(** [assert cond, msg] *)
Definition assert_ {S} (cond : bool) (msg : string) : M S unit :=
  if cond then ret tt else raise (Raise AssertionError msg).

(** ** The external libraries *)

Class Rasterio := {
  Foreign : Type;
  Dataset : Type;
  MemoryFile : Type;
  DatasetWriter : Type;
  NDArray : Type;
  FileObj : Type;
  Vector : Type;
  (* os, builtins *)
  abspath : string -> string;
  fs_open : string -> result FileObj;
  py_str : PyVal Foreign -> string;
  py_format_2f : PyVal Foreign -> result string;
  foreign_iter : Foreign -> result (list (PyVal Foreign));
  foreign_slice : Foreign -> option nat -> option nat -> result (PyVal Foreign);
  (* numpy *)
  arr_shape : NDArray -> list Z;
  arr_dtype : NDArray -> PyVal Foreign;
  arr_band : NDArray -> Z -> result NDArray;
  np_zeros : list (PyVal Foreign) -> PyVal Foreign -> result NDArray;
  np_nanmax : NDArray -> result (PyVal Foreign);
  np_nanmin : NDArray -> result (PyVal Foreign);
  np_nanmedian : NDArray -> result (PyVal Foreign);
  np_nanmean : NDArray -> result (PyVal Foreign);
  np_nanstd : NDArray -> result (PyVal Foreign);
  (* rasterio.io *)
  MemoryFile_of_file : FileObj -> result MemoryFile;
  MemoryFile_new : result MemoryFile;
  memfile_open : MemoryFile -> result Dataset;
  memfile_create : MemoryFile -> gmap string (PyVal Foreign) -> result DatasetWriter;
  (* [ds.write(imgdata)] followed by the end of the [with] block; the value
     is the memory file holding the written dataset *)
  writer_write : DatasetWriter -> NDArray -> result MemoryFile;
  (* the dataset object *)
  ds_getattr : Dataset -> string -> option (PyVal Foreign);
  ds_meta : Dataset -> gmap string (PyVal Foreign);
  ds_read : Dataset -> option (PyVal Foreign) -> result NDArray;
  to_epsg : Foreign -> result (PyVal Foreign);
  (* shapely, rasterio.mask, rasterio.windows, rasterio.transform, rasterio.warp *)
  Polygon : list (PyVal Foreign * PyVal Foreign) -> result Foreign;
  mask : Dataset -> list Foreign -> result (NDArray * PyVal Foreign);
  windows_from_bounds :
    PyVal Foreign -> PyVal Foreign -> PyVal Foreign -> PyVal Foreign ->
    PyVal Foreign -> result Window;
  transform_from_bounds :
    PyVal Foreign -> PyVal Foreign -> PyVal Foreign -> PyVal Foreign ->
    Z -> Z -> result (PyVal Foreign);
  reproject :
    NDArray -> NDArray -> PyVal Foreign -> PyVal Foreign -> PyVal Foreign ->
    PyVal Foreign -> result (NDArray * PyVal Foreign);
  (* The names the wrapper itself assigns on an instance are not attributes
     of a rasterio dataset: mirroring never overwrites them, which is what
     lets the record below keep them apart from the mirrored ones. *)
  ds_getattr_own : forall d n,
    n ∈ ["filename"; "memfile"; "ds"; "data"; "nbands"; "isLoaded"; "_saved_attrs"] ->
    ds_getattr d n = None
}.

(** Attributes from rasterio's DatasetReader object to be kept by default. *)
Definition default_attrs : list string :=
  ["bounds"; "count"; "crs"; "dataset_mask"; "driver"; "dtypes"; "height"; "indexes";
   "name"; "nodata"; "res"; "shape"; "transform"; "width"].

Section RasterClass.
Context {rio : Rasterio}.

Abbreviation val := (PyVal Foreign).

(** ** The [Raster] object *)

(** The instance attributes.  [filename], [memfile], [ds], [data], [nbands],
    [isLoaded] and [_saved_attrs] are assigned by name in the source;
    [mirrored] holds what [setattr] copies from the dataset.  [None] in
    [filename], [data] and [nbands] is Python's [None]. *)
Record Raster := mkRaster {
  filename : option string;
  memfile : MemoryFile;
  ds : Dataset;
  data : option NDArray;
  nbands : option Z;
  isLoaded : bool;
  _saved_attrs : list string;
  mirrored : gmap string val
}.

Definition set_memfile (m : MemoryFile) (r : Raster) : Raster :=
  mkRaster (filename r) m (ds r) (data r) (nbands r) (isLoaded r) (_saved_attrs r) (mirrored r).
Definition set_ds (d : Dataset) (r : Raster) : Raster :=
  mkRaster (filename r) (memfile r) d (data r) (nbands r) (isLoaded r) (_saved_attrs r) (mirrored r).
Definition set_data (a : option NDArray) (r : Raster) : Raster :=
  mkRaster (filename r) (memfile r) (ds r) a (nbands r) (isLoaded r) (_saved_attrs r) (mirrored r).
Definition set_nbands (n : option Z) (r : Raster) : Raster :=
  mkRaster (filename r) (memfile r) (ds r) (data r) n (isLoaded r) (_saved_attrs r) (mirrored r).
Definition set_isLoaded (b : bool) (r : Raster) : Raster :=
  mkRaster (filename r) (memfile r) (ds r) (data r) (nbands r) b (_saved_attrs r) (mirrored r).
Definition set_saved_attrs (l : list string) (r : Raster) : Raster :=
  mkRaster (filename r) (memfile r) (ds r) (data r) (nbands r) (isLoaded r) l (mirrored r).
(** [setattr(self, attr, v)] for a mirrored attribute. *)
Definition setattr (attr : string) (v : val) (r : Raster) : Raster :=
  mkRaster (filename r) (memfile r) (ds r) (data r) (nbands r) (isLoaded r) (_saved_attrs r)
           (<[attr := v]> (mirrored r)).

(** [self.attr] for a mirrored attribute. *)
Definition getattr (r : Raster) (attr : string) : result val :=
  match mirrored r !! attr with
  | Some v => Ok v
  | None => Err (Raise AttributeError attr)
  end.

(** ** [Raster.load] *)

Definition load (bands : option val) : M Raster unit :=
  let* self := get_self in
  let* a := io EvRead (ds_read (ds self) bands) in
  run modify (set_data (Some a)) in
  if decide (length (arr_shape a) = 3%nat)
  then modify (set_nbands (head (arr_shape a)))
  else modify (set_nbands (Some 1)).

(** ** [Raster._read_attrs] *)

(** What the caller passes as [attrs]. *)
Inductive AttrsArg :=
  | AttrsNone
  | AttrsStr (s : string)
  | AttrsList (l : list string)
  | AttrsTuple (l : list string).

(** [for attr in default_attrs: if attr not in attrs: attrs.append(attr)] *)
Definition append_defaults (attrs : list string) : list string :=
  foldl (fun acc attr => if decide (attr ∈ acc) then acc else acc ++ [attr])
        attrs default_attrs.

(** [for attr in attrs: setattr(self, attr, getattr(self.ds, attr))] *)
Fixpoint mirror_attrs (attrs : list string) : M Raster unit :=
  match attrs with
  | [] => ret tt
  | attr :: rest =>
      let* self := get_self in
      let* v := lift (match ds_getattr (ds self) attr with
                      | Some v => Ok v
                      | None => Err (Raise AttributeError attr)
                      end) in
      run modify (setattr attr v) in
      mirror_attrs rest
  end.

(** The list saved in [_saved_attrs] is the caller's own list object, extended
    in place with the missing defaults; the model keeps its final contents. *)
Definition _read_attrs (attrs : AttrsArg) : M Raster unit :=
  let* attrs :=
    match attrs with
    | AttrsNone =>
        run modify (set_saved_attrs default_attrs) in
        ret default_attrs
    | AttrsStr s =>
        let attrs := append_defaults [s] in
        run modify (set_saved_attrs attrs) in
        ret attrs
    | AttrsList l =>
        let attrs := append_defaults l in
        run modify (set_saved_attrs attrs) in
        ret attrs
    | AttrsTuple l =>
        (* a tuple has no [append] *)
        if decide (Forall (fun attr => attr ∈ l) default_attrs)
        then run modify (set_saved_attrs l) in ret l
        else raise (Raise AttributeError "append")
    end in
  mirror_attrs attrs.

(** ** [Raster._update] *)

Definition _update (imgdata : NDArray) (metadata : gmap string val) : M Raster unit :=
  let* memfile := io EvMemoryFile MemoryFile_new in
  let* w := io EvCreate (memfile_create memfile metadata) in
  let* memfile := io EvWrite (writer_write w imgdata) in
  run modify (set_memfile memfile) in
  let* d := io EvOpen (memfile_open memfile) in
  run modify (set_ds d) in
  run _read_attrs AttrsNone in
  let* self := get_self in
  if isLoaded self then load None else ret tt.

(** ** Builtins used by [info] and [crop] *)

Definition chars (s : string) : list val :=
  (fun c => VStr (String c EmptyString)) <$> String.list_ascii_of_string s.

(** Iterating a value, as [*v] and tuple unpacking do. *)
Definition py_iter (v : val) : result (list val) :=
  match v with
  | VTuple l | VList l => Ok l
  | VStr s => Ok (chars s)
  | VForeign x => foreign_iter x
  | _ => Err (Raise TypeError "object is not iterable")
  end.

(** [a, b, c, d = v] *)
Definition unpack4 (v : val) : result (val * val * val * val) :=
  let? l := py_iter v in
  match l with
  | [a; b; c; d] => Ok (a, b, c, d)
  | _ => Err (Raise ValueError "wrong number of values to unpack")
  end.

Definition slice {A} (start stop : option nat) (l : list A) : list A :=
  let l := match stop with Some j => take j l | None => l end in
  match start with Some i => drop i l | None => l end.

(** [v[start:stop]] with non-negative bounds. *)
Definition py_slice (v : val) (start stop : option nat) : result val :=
  match v with
  | VTuple l => Ok (VTuple (slice start stop l))
  | VList l => Ok (VList (slice start stop l))
  | VStr s => Ok (VStr (String.string_of_list_ascii (slice start stop (String.list_ascii_of_string s))))
  | VForeign x => foreign_slice x start stop
  | _ => Err (Raise TypeError "object is not subscriptable")
  end.

(** [v.to_epsg()] *)
Definition call_to_epsg (v : val) : result val :=
  match v with
  | VForeign x => to_epsg x
  | _ => Err (Raise AttributeError "to_epsg")
  end.

Definition nl : string := String (Ascii.ascii_of_nat 10) EmptyString.

(** A two-field line: the label, then the first two items of the unpacked
    argument separated by a comma, and a newline. *)
Definition format_pair (label : string) (v : val) : result string :=
  let? args := py_iter v in
  match args with
  | a :: b :: _ => Ok (label +:+ py_str a +:+ ", " +:+ py_str b +:+ nl)
  | _ => Err (Raise IndexError "Replacement index out of range")
  end.

Definition opt_str (s : option string) : val :=
  match s with Some s => VStr s | None => VNone end.
Definition opt_int (n : option Z) : val :=
  match n with Some n => VInt n | None => VNone end.

(** ** [Raster.info] *)

(** The five statistics lines of one array, in the order the source appends
    them. *)
Definition stat_line (label : string) (stat : NDArray -> result val)
    (a : result NDArray) : result string :=
  let? a := a in
  let? v := stat a in
  let? s := py_format_2f v in
  Ok (label +:+ s +:+ nl).

Definition stats_lines (a : result NDArray) : result (list string) :=
  let? mx := stat_line "[MAXIMUM]:          " np_nanmax a in
  let? mn := stat_line "[MINIMUM]:          " np_nanmin a in
  let? md := stat_line "[MEDIAN]:           " np_nanmedian a in
  let? me := stat_line "[MEAN]:             " np_nanmean a in
  let? sd := stat_line "[STD DEV]:          " np_nanstd a in
  Ok [mx; mn; md; me; sd].

(** [for b in range(self.nbands): ...] *)
Fixpoint band_lines (a : NDArray) (bs : list Z) : result (list string) :=
  match bs with
  | [] => Ok []
  | b :: rest =>
      let band := "Band " +:+ pretty (b + 1) +:+ ":" in
      let? ls := stats_lines (arr_band a b) in
      let? more := band_lines a rest in
      Ok (band :: ls ++ more)
  end.

Definition info (stats : bool) (self : Raster) : result string :=
  let? driver := getattr self "driver" in
  let? name := getattr self "name" in
  let? width := getattr self "width" in
  let? height := getattr self "height" in
  let? crs := getattr self "crs" in
  let? epsg := call_to_epsg crs in
  let? nodata := getattr self "nodata" in
  let? res := getattr self "res" in
  let? pixel_size := format_pair "Pixel Size:         " res in
  let? bounds := getattr self "bounds" in
  let? ul := py_slice bounds None (Some 2%nat) in
  let? upper_left := format_pair "Upper Left Corner:  " ul in
  let? bounds := getattr self "bounds" in
  let? lr := py_slice bounds (Some 2%nat) None in
  let? lower_right := format_pair "Lower Right Corner: " lr in
  let as_str :=
    ["Driver:             " +:+ py_str driver +:+ " " +:+ nl;
     "File on disk:       " +:+ py_str (opt_str (filename self)) +:+ " " +:+ nl;
     "RIO MemoryFile:     " +:+ py_str name +:+ nl;
     "Size:               " +:+ py_str width +:+ ", " +:+ py_str height +:+ nl;
     "Coordinate System:  EPSG:" +:+ py_str epsg +:+ nl;
     "NoData Value:       " +:+ py_str nodata +:+ nl;
     pixel_size; upper_left; lower_right] in
  let? as_str :=
    if stats then
      match data self with
      | Some a =>
          match nbands self with
          | Some 1 =>
              let? ls := stats_lines (Ok a) in Ok (as_str ++ ls)
          | Some n =>
              let? ls := band_lines a (seqZ 0 n) in Ok (as_str ++ ls)
          | None =>
              Err (Raise TypeError "'NoneType' object cannot be interpreted as an integer")
          end
      | None => Ok as_str
      end
    else Ok as_str in
  Ok (foldr String.append EmptyString as_str).

(** ** [Raster.crop] *)

(** What the caller passes as [cropGeom]: a [Raster], a [Vector], or any
    other value. *)
Inductive CropGeom :=
  | GeomRaster (r : Raster)
  | GeomVector (v : Vector)
  | GeomValue (v : val).

Definition crop (cropGeom : CropGeom) (mode : string) : M Raster unit :=
  run assert_ (bool_decide (mode ∈ ["match_extent"; "match_pixel"]))
              "mode must be one of 'match_pixel', 'match_extent'" in
  let* (xmin, ymin, xmax, ymax) :=
    match cropGeom with
    | GeomRaster r => lift (let? b := getattr r "bounds" in unpack4 b)
    | GeomVector _ => raise (Raise NotImplementedError "")
    | GeomValue (VList _ as v) | GeomValue (VTuple _ as v) => lift (unpack4 v)
    | GeomValue _ =>
        raise (Raise ValueError "cropGeom must be a Raster, Vector, or list of coordinates.")
    end in
  let* self := get_self in
  let meta := ds_meta (ds self) in
  let* (crop_img, meta) :=
    if bool_decide (mode = "match_pixel") then
      let* crop_bbox :=
        lift (Polygon [(xmin, ymin); (xmax, ymin); (xmax, ymax); (xmin, ymax)]) in
      let* (crop_img, tfm) := io EvMask (mask (ds self) [crop_bbox]) in
      let* h := lift (match arr_shape crop_img !! 1%nat with
                      | Some h => Ok h
                      | None => Err (Raise IndexError "tuple index out of range")
                      end) in
      let* w := lift (match arr_shape crop_img !! 2%nat with
                      | Some w => Ok w
                      | None => Err (Raise IndexError "tuple index out of range")
                      end) in
      ret (crop_img,
           <["transform" := tfm]> (<["width" := VInt w]> (<["height" := VInt h]> meta)))
    else
      let* transform := lift (getattr self "transform") in
      let* window := lift (windows_from_bounds xmin ymin xmax ymax transform) in
      let* new_height := lift (py_int (height window)) in
      let* new_width := lift (py_int (width window)) in
      let* new_tfm :=
        lift (transform_from_bounds xmin ymin xmax ymax new_width new_height) in
      let* n :=
        if isLoaded self then ret (opt_int (nbands self))
        else lift (getattr self "count") in
      let* src :=
        lift (match data self with
              | Some a => Ok a
              | None => Err (Raise AttributeError "'NoneType' object has no attribute 'dtype'")
              end) in
      let* new_img := lift (np_zeros [n; VInt new_height; VInt new_width] (arr_dtype src)) in
      let* transform := lift (getattr self "transform") in
      let* crs := lift (getattr self "crs") in
      let* (crop_img, tfm) :=
        io EvReproject (reproject src new_img transform new_tfm crs crs) in
      ret (crop_img,
           <["transform" := tfm]>
             (<["width" := VInt new_width]> (<["height" := VInt new_height]> meta))) in
  _update crop_img meta.

Definition clip : M Raster unit := ret tt.

(** [Raster.__str__] *)
Definition __str__ (self : Raster) : result string := info false self.

(** ** [Raster.__init__] *)

(** Runs a method body on the object [r]; the caller's own state is any [S]. *)
Definition on_object {S A} (r : Raster) (m : M Raster A) : M S (A * Raster) :=
  fun s => match m (mkSt r (trace s)) with
           | (Ok a, s') => (Ok (a, obj s'), mkSt (obj s) (trace s'))
           | (Err e, s') => (Err e, mkSt (obj s) (trace s'))
           end.

(** The constructor.  The object is allocated once [self.filename],
    [self.memfile] and [self.ds] are known; [data], [nbands] and [isLoaded]
    start at the values the [else] branch assigns, which nothing reads before
    one of the two branches has assigned them. *)
Definition Raster_init (fname : string) (attrs : AttrsArg) (load_data : bool)
    (bands : option val) : M unit Raster :=
  let abs := abspath fname in
  let* f := io (EvOpenFile fname) (fs_open fname) in
  let* memfile := io EvMemoryFile (MemoryFile_of_file f) in
  let* d := io EvOpen (memfile_open memfile) in
  let self := mkRaster (Some abs) memfile d None None false [] ∅ in
  let* (_, self) :=
    on_object self
      (run _read_attrs attrs in
       if load_data then
         run load bands in
         modify (set_isLoaded true)
       else
         run modify (set_data None) in
         run modify (set_nbands None) in
         modify (set_isLoaded false)) in
  ret self.

End RasterClass.

(** ** Vocabulary of the properties *)

(** The modes [crop] accepts. *)
Definition valid_mode (mode : string) : bool :=
  bool_decide (mode ∈ ["match_extent"; "match_pixel"]).

(** The mode assertion's exception. *)
Definition mode_error : exn :=
  Raise AssertionError "mode must be one of 'match_pixel', 'match_extent'".

(** A configuration error in the sense of the specification: a rejected
    mode, a rejected geometry type, or the unsupported vector geometry. *)
Definition is_configuration_error (e : exn) : bool :=
  match exn_class_of e with
  | AssertionError | ValueError | NotImplementedError => true
  | _ => false
  end.

(** [cropGeom] is a list or a tuple. *)
Definition is_coordinates {F} (v : PyVal F) : bool :=
  match v with
  | VList _ | VTuple _ => true
  | _ => false
  end.

Section Vocabulary.
Context {rio : Rasterio}.

Abbreviation val := (PyVal Foreign).

Definition set_mirrored (m : gmap string val) (r : Raster) : Raster :=
  mkRaster (filename r) (memfile r) (ds r) (data r) (nbands r) (isLoaded r) (_saved_attrs r) m.

(** The mirror after copying the attributes [l] of the dataset [d]. *)
Definition mirror_map (d : Dataset) (l : list string) (m : gmap string val)
  : gmap string val :=
  foldl (fun m a => match ds_getattr d a with Some v => <[a := v]> m | None => m end) m l.

(** Every name of [l] is an attribute of the dataset [d]. *)
Definition has_attrs (d : Dataset) (l : list string) : Prop :=
  Forall (fun a => is_Some (ds_getattr d a)) l.

(** The band count [load] derives from the array it read. *)
Definition nbands_of (a : NDArray) : option Z :=
  if decide (length (arr_shape a) = 3%nat) then head (arr_shape a) else Some 1.

(** The calls [_update] makes to replace the backing dataset. *)
Definition update_events : list Event := [EvMemoryFile; EvCreate; EvWrite; EvOpen].

(** The object [_update] leaves before it reloads the buffer. *)
Definition swapped (mf : MemoryFile) (d : Dataset) (r : Raster) : Raster :=
  mkRaster (filename r) mf d (data r) (nbands r) (isLoaded r) default_attrs
           (mirror_map d default_attrs (mirrored r)).

(** The extent [crop] reads from its [cropGeom] argument. *)
Definition geom_bounds (cropGeom : CropGeom) : result (val * val * val * val) :=
  match cropGeom with
  | GeomRaster r => let? b := getattr r "bounds" in unpack4 b
  | GeomVector _ => Err (Raise NotImplementedError "")
  | GeomValue v =>
      if is_coordinates v then unpack4 v
      else Err (Raise ValueError "cropGeom must be a Raster, Vector, or list of coordinates.")
  end.

(** The metadata [crop] hands to [_update]. *)
Definition cropped_meta (meta : gmap string val) (h w : Z) (tfm : val) : gmap string val :=
  <["transform" := tfm]> (<["width" := VInt w]> (<["height" := VInt h]> meta)).

(** The image, size and transform each mode of [crop] computes, with the
    library calls that yield them. *)
Inductive crop_image (r : Raster) (xmin ymin xmax ymax : val)
  : string -> Event -> NDArray -> Z -> Z -> val -> Prop :=
  | crop_match_pixel crop_bbox crop_img tfm h w :
      Polygon [(xmin, ymin); (xmax, ymin); (xmax, ymax); (xmin, ymax)] = Ok crop_bbox ->
      mask (ds r) [crop_bbox] = Ok (crop_img, tfm) ->
      arr_shape crop_img !! 1%nat = Some h ->
      arr_shape crop_img !! 2%nat = Some w ->
      crop_image r xmin ymin xmax ymax "match_pixel" EvMask crop_img h w tfm
  | crop_match_extent transform window new_height new_width new_tfm n src new_img crs
      crop_img tfm :
      getattr r "transform" = Ok transform ->
      windows_from_bounds xmin ymin xmax ymax transform = Ok window ->
      py_int (height window) = Ok new_height ->
      py_int (width window) = Ok new_width ->
      transform_from_bounds xmin ymin xmax ymax new_width new_height = Ok new_tfm ->
      (if isLoaded r then Ok (opt_int (nbands r)) else getattr r "count") = Ok n ->
      data r = Some src ->
      np_zeros [n; VInt new_height; VInt new_width] (arr_dtype src) = Ok new_img ->
      getattr r "crs" = Ok crs ->
      reproject src new_img transform new_tfm crs crs = Ok (crop_img, tfm) ->
      crop_image r xmin ymin xmax ymax "match_extent" EvReproject crop_img new_height
                 new_width tfm.

(** The contract of the in-memory dataset factory: a dataset opened from a
    memory file reports the CRS, nodata value, driver and dtype it was
    created with. *)
Class FactoryKeepsMeta : Prop :=
  factory_keeps_meta : forall mf0 meta w img mf d k,
    memfile_create mf0 meta = Ok w ->
    writer_write w img = Ok mf ->
    memfile_open mf = Ok d ->
    k ∈ ["crs"; "nodata"; "driver"; "dtype"] ->
    ds_meta d !! k = meta !! k.

End Vocabulary.

Arguments mirror_map : simpl never.
Arguments append_defaults : simpl never.

(** ** Vocabulary of the further properties *)

(** [z] is [q] rounded toward zero. *)
Definition truncation (z : Z) (q : Q) : Prop :=
  ((0 <= q)%Q -> (inject_Z z <= q)%Q /\ (q < inject_Z (z + 1))%Q)
  /\ ((q <= 0)%Q -> (inject_Z (z - 1) < q)%Q /\ (q <= inject_Z z)%Q).

Section Frames.
Context {rio : Rasterio}.
(** Two handles agree on everything but the pixel buffer and band count. *)
Definition same_but_buffer (r1 r2 : Raster) : Prop :=
  filename r1 = filename r2 /\ memfile r1 = memfile r2 /\ ds r1 = ds r2
  /\ isLoaded r1 = isLoaded r2 /\ _saved_attrs r1 = _saved_attrs r2
  /\ mirrored r1 = mirrored r2.

(** Every run of [m], whatever its outcome, takes the object to an
    [R]-related one. *)
Definition keeps {A} (R : relation Raster) (m : M Raster A) : Prop :=
  forall s r s', m s = (r, s') -> R (obj s) (obj s').

(** The attributes that identify a handle and its backing memory file. *)
Definition same_core (h h' : Raster) : Prop :=
  filename h' = filename h /\ memfile h' = memfile h /\ isLoaded h' = isLoaded h.

(** What a failed [crop] may have done to the handle [h]: nothing, or it
    failed after the new dataset had been written to its memory file. *)
Definition failed_crop_frame (h h' : Raster) : Prop :=
  h' = h
  \/ exists crop_img metadata mf0 w,
       MemoryFile_new = Ok mf0
       /\ memfile_create mf0 metadata = Ok w
       /\ writer_write w crop_img = Ok (memfile h')
       /\ isLoaded h' = isLoaded h
       /\ filename h' = filename h.

(** The handles a program obtains: from the constructor, and from a handle
    by a call of [load] (whatever its outcome) or a call of [crop] that
    returns. *)
Inductive reachable : Raster -> Prop :=
  | reach_init fname attrs load_data bands s h s' :
      Raster_init fname attrs load_data bands s = (Ok h, s') ->
      reachable h
  | reach_load h bands tr r s' :
      reachable h ->
      load bands (mkSt h tr) = (r, s') ->
      reachable (obj s')
  | reach_crop h cropGeom mode tr s' :
      reachable h ->
      crop cropGeom mode (mkSt h tr) = (Ok tt, s') ->
      reachable (obj s').

(** Every default attribute is mirrored with the backing dataset's value. *)
Definition mirror_ok (h : Raster) : Prop :=
  forall a, a ∈ default_attrs ->
    exists v, ds_getattr (ds h) a = Some v /\ mirrored h !! a = Some v.

(** A handle marked as loaded holds a pixel buffer and a band count. *)
Definition buffer_ok (h : Raster) : Prop :=
  isLoaded h = true -> is_Some (data h) /\ is_Some (nbands h).
End Frames.

(** ** A small instance of the interface

    An integer-grid raster library: coordinates and pixel sizes are integers,
    a dataset is its metadata dictionary and an array, an array is its shape,
    dtype and fill value.  It gives concrete handles to run the methods on. *)
Module Toy.

Inductive foreign :=
  | TCRS (epsg : Z)
    (* x = c + a * col, y = f + e * row *)
  | TAffine (a c e f : Z)
  | TPolygon (xmin ymin xmax ymax : Z)
  | TMethod (name : string).

Abbreviation val := (PyVal foreign).

Record array := mkArray { shape : list Z; dtype : string; fill : Z }.
Record dataset := mkDataset { meta : gmap string val; img : array }.

Definition io_error {A} : result A := Err (Raise (LibraryError "RasterioIOError") "").
Definition type_error {A} : result A := Err (Raise TypeError "").

Definition str (v : val) : string :=
  match v with
  | VNone => "None"
  | VBool true => "True"
  | VBool false => "False"
  | VInt z => pretty z
  | VFloat _ => "nan"
  | VStr s => s
  | VTuple _ => "(...)"
  | VList _ => "[...]"
  | VForeign (TCRS e) => "EPSG:" +:+ pretty e
  | VForeign _ => "<object>"
  end.

Definition format_2f (v : val) : result string :=
  match v with
  | VInt z => Ok (pretty z +:+ ".00")
  | _ => type_error
  end.

Definition iter (x : foreign) : result (list val) :=
  match x with
  | TAffine a c e f => Ok [VInt a; VInt 0; VInt c; VInt 0; VInt e; VInt f]
  | _ => type_error
  end.

Definition band (a : array) (b : Z) : result array :=
  match shape a with
  | [n; h; w] =>
      if bool_decide (0 <= b < n) then Ok (mkArray [h; w] (dtype a) (fill a))
      else Err (Raise IndexError "")
  | _ => Err (Raise IndexError "")
  end.

Definition as_dim (v : val) : option Z :=
  match v with
  | VInt z => if bool_decide (0 <= z) then Some z else None
  | _ => None
  end.

Definition zeros (dims : list val) (dt : val) : result array :=
  match mapM as_dim dims, dt with
  | Some sh, VStr s => Ok (mkArray sh s 0)
  | _, _ => type_error
  end.

Definition int_of (m : gmap string val) (k : string) : option Z :=
  match m !! k with
  | Some (VInt z) => Some z
  | _ => None
  end.

Definition affine_of (m : gmap string val) : option (Z * Z * Z * Z) :=
  match m !! "transform" with
  | Some (VForeign (TAffine a c e f)) =>
      if bool_decide (0 < a ∧ e < 0) then Some (a, c, e, f) else None
  | _ => None
  end.

Definition meta_keys : list string :=
  ["driver"; "dtype"; "nodata"; "width"; "height"; "count"; "crs"; "transform"].

Definition create (mf : option dataset) (m : gmap string val) : result (gmap string val) :=
  match mf with
  | None =>
      if bool_decide (Forall (fun k => is_Some (m !! k)) meta_keys) then Ok m
      else type_error
  | Some _ => io_error
  end.

Definition write (m : gmap string val) (a : array) : result (option dataset) :=
  match int_of m "count", int_of m "height", int_of m "width" with
  | Some n, Some h, Some w =>
      if bool_decide (shape a = [n; h; w]) then Ok (Some (mkDataset m a))
      else Err (Raise ValueError "Source shape is inconsistent with the dataset")
  | _, _, _ => type_error
  end.

Definition open (mf : option dataset) : result dataset :=
  match mf with
  | Some d => Ok d
  | None => io_error
  end.

Definition bounds_of (m : gmap string val) : option val :=
  match affine_of m, int_of m "width", int_of m "height" with
  | Some (a, c, e, f), Some w, Some h =>
      Some (VTuple [VInt c; VInt (f + e * h); VInt (c + a * w); VInt f])
  | _, _, _ => None
  end.

Definition getattr (d : dataset) (n : string) : option val :=
  let m := meta d in
  if bool_decide (n ∈ ["driver"; "nodata"; "width"; "height"; "count"; "crs"; "transform"])
  then m !! n
  else if bool_decide (n = "bounds") then bounds_of m
  else if bool_decide (n = "res") then
    (fun '(a, _, e, _) => VTuple [VInt a; VInt (- e)]) <$> affine_of m
  else if bool_decide (n = "shape") then
    match int_of m "height", int_of m "width" with
    | Some h, Some w => Some (VTuple [VInt h; VInt w])
    | _, _ => None
    end
  else if bool_decide (n = "dtypes") then
    match m !! "dtype", int_of m "count" with
    | Some dt, Some n => Some (VTuple (replicate (Z.to_nat n) dt))
    | _, _ => None
    end
  else if bool_decide (n = "indexes") then
    (fun n => VTuple (VInt <$> seqZ 1 n)) <$> int_of m "count"
  else if bool_decide (n = "name") then Some (VStr "/vsimem/toy.tif")
  else if bool_decide (n = "dataset_mask") then Some (VForeign (TMethod "dataset_mask"))
  else None.

Definition read (d : dataset) (bands : option val) : result array :=
  match bands, shape (img d) with
  | None, _ => Ok (img d)
  | Some (VInt i), [n; h; w] =>
      if bool_decide (1 <= i <= n) then Ok (mkArray [h; w] (dtype (img d)) (fill (img d)))
      else Err (Raise IndexError "band index out of range")
  | Some (VList l), [n; h; w] =>
      Ok (mkArray [Z.of_nat (length l); h; w] (dtype (img d)) (fill (img d)))
  | _, _ => type_error
  end.

Definition epsg_of (x : foreign) : result val :=
  match x with
  | TCRS e => Ok (VInt e)
  | _ => Err (Raise AttributeError "to_epsg")
  end.

Definition polygon (pts : list (val * val)) : result foreign :=
  match pts with
  | [(VInt x0, VInt y0); (VInt x1, VInt _); (VInt _, VInt y1); (VInt _, VInt _)] =>
      Ok (TPolygon x0 y0 x1 y1)
  | _ => type_error
  end.

(** Ceiling of [n / d] for positive [d]. *)
Definition cdiv (n d : Z) : Z := - ((- n) / d).

(** All pixels touched by the rectangle, clipped to the grid. *)
Definition mask_ (d : dataset) (shapes : list foreign) : result (array * val) :=
  match shapes, affine_of (meta d), shape (img d) with
  | [TPolygon xmin ymin xmax ymax], Some (a, c, e, f), [n; h; w] =>
      let col0 := Z.max 0 ((xmin - c) / a) in
      let col1 := Z.min w (cdiv (xmax - c) a) in
      let row0 := Z.max 0 ((f - ymax) / (- e)) in
      let row1 := Z.min h (cdiv (f - ymin) (- e)) in
      if bool_decide (col0 < col1 ∧ row0 < row1) then
        Ok (mkArray [n; row1 - row0; col1 - col0] (dtype (img d)) (fill (img d)),
            VForeign (TAffine a (c + a * col0) e (f + e * row0)))
      else Err (Raise ValueError "Input shapes do not overlap raster.")
  | _, _, _ => type_error
  end.

Definition ratio (n d : Z) : pyfloat := Finite (Qmake n (Z.to_pos d)).

Definition window_from_bounds (xmin ymin xmax ymax tfm : val) : result Window :=
  match xmin, ymin, xmax, ymax, tfm with
  | VInt xmin, VInt ymin, VInt xmax, VInt ymax, VForeign (TAffine a c e f) =>
      if bool_decide (0 < a ∧ e < 0) then
        Ok (mkWindow (ratio (xmin - c) a) (ratio (f - ymax) (- e))
                     (ratio (xmax - xmin) a) (ratio (ymax - ymin) (- e)))
      else Err (Raise (LibraryError "WindowError") "")
  | _, _, _, _, _ => type_error
  end.

(** Integer pixel sizes only. *)
Definition affine_from_bounds (xmin ymin xmax ymax : val) (w h : Z) : result val :=
  match xmin, ymin, xmax, ymax with
  | VInt xmin, VInt ymin, VInt xmax, VInt ymax =>
      if bool_decide (w = 0 ∨ h = 0) then Err (Raise (LibraryError "ZeroDivisionError") "")
      else if bool_decide ((xmax - xmin) mod w = 0 ∧ (ymax - ymin) mod h = 0) then
        Ok (VForeign (TAffine ((xmax - xmin) / w) xmin ((ymin - ymax) / h) ymax))
      else Err (Raise (LibraryError "ToyError") "pixel size is not an integer")
  | _, _, _, _ => type_error
  end.

Definition warp (src dst : array) (src_tfm dst_tfm src_crs dst_crs : val)
  : result (array * val) :=
  Ok (mkArray (shape dst) (dtype dst) (fill src), dst_tfm).

Lemma getattr_own d n :
  n ∈ ["filename"; "memfile"; "ds"; "data"; "nbands"; "isLoaded"; "_saved_attrs"] ->
  getattr d n = None.
Proof.
  intros Hn. repeat (apply elem_of_cons in Hn as [-> | Hn]; [reflexivity |]).
  by apply elem_of_nil in Hn.
Qed.

(** The one file of the toy file system. *)
Definition landsat : dataset :=
  mkDataset
    (list_to_map
       [("driver", VStr "GTiff"); ("dtype", VStr "uint8"); ("nodata", VNone);
        ("width", VInt 40); ("height", VInt 30); ("count", VInt 1);
        ("crs", VForeign (TCRS 32645)); ("transform", VForeign (TAffine 5 0 (-5) 150))])
    (mkArray [1; 30; 40] "uint8" 7).

Definition fopen (f : string) : result dataset :=
  if bool_decide (f = "landsat_B4_crop.tif") then Ok landsat
  else Err (Raise (LibraryError "FileNotFoundError") f).

#[export] Instance lib : Rasterio := {|
  Foreign := foreign;
  Dataset := dataset;
  MemoryFile := option dataset;
  DatasetWriter := gmap string val;
  NDArray := array;
  FileObj := dataset;
  Vector := unit;
  abspath := fun f => "/data/" +:+ f;
  fs_open := fopen;
  py_str := str;
  py_format_2f := format_2f;
  foreign_iter := iter;
  foreign_slice := fun _ _ _ => type_error;
  arr_shape := shape;
  arr_dtype := fun a => VStr (dtype a);
  arr_band := band;
  np_zeros := zeros;
  np_nanmax := fun a => Ok (VInt (fill a));
  np_nanmin := fun a => Ok (VInt (fill a));
  np_nanmedian := fun a => Ok (VInt (fill a));
  np_nanmean := fun a => Ok (VInt (fill a));
  np_nanstd := fun a => Ok (VInt 0);
  MemoryFile_of_file := fun f => Ok (Some f);
  MemoryFile_new := Ok None;
  memfile_open := open;
  memfile_create := create;
  writer_write := write;
  ds_getattr := getattr;
  ds_meta := meta;
  ds_read := read;
  to_epsg := epsg_of;
  Polygon := polygon;
  mask := mask_;
  windows_from_bounds := window_from_bounds;
  transform_from_bounds := affine_from_bounds;
  reproject := warp;
  ds_getattr_own := getattr_own
|}.

(** The mirror of [landsat]'s default attributes. *)
Definition landsat_attrs : gmap string val :=
  list_to_map
    [("bounds", VTuple [VInt 0; VInt 0; VInt 200; VInt 150]); ("count", VInt 1);
     ("crs", VForeign (TCRS 32645)); ("dataset_mask", VForeign (TMethod "dataset_mask"));
     ("driver", VStr "GTiff"); ("dtypes", VTuple [VStr "uint8"]); ("height", VInt 30);
     ("indexes", VTuple [VInt 1]); ("name", VStr "/vsimem/toy.tif"); ("nodata", VNone);
     ("res", VTuple [VInt 5; VInt 5]); ("shape", VTuple [VInt 30; VInt 40]);
     ("transform", VForeign (TAffine 5 0 (-5) 150)); ("width", VInt 40)].

(** [Raster("landsat_B4_crop.tif")] *)
Definition unloaded : Raster :=
  mkRaster (Some "/data/landsat_B4_crop.tif") (Some landsat) landsat None None false
           default_attrs landsat_attrs.

(** [Raster("landsat_B4_crop.tif", load_data=True)] *)
Definition loaded : Raster :=
  mkRaster (Some "/data/landsat_B4_crop.tif") (Some landsat) landsat
           (Some (mkArray [1; 30; 40] "uint8" 7)) (Some 1) true
           default_attrs landsat_attrs.

(** [Raster("landsat_B4_crop.tif")] followed by [load()]: the buffer is
    present, [isLoaded] is still [False]. *)
Definition loaded_by_hand : Raster :=
  set_nbands (Some 1) (set_data (Some (mkArray [1; 30; 40] "uint8" 7)) unloaded).

(** The handle of a dataset with no coordinate reference system. *)
Definition no_crs : Raster := setattr "crs" VNone unloaded.

(** [(0, 0, 10, 10)] *)
Definition extent : CropGeom :=
  GeomValue (VTuple [VInt 0; VInt 0; VInt 10; VInt 10]).

End Toy.

(** * Properties *)

(** ** Running the monad *)

Lemma bind_Ok {S A B} (m : M S A) (k : A -> M S B) s a s' :
  m s = (Ok a, s') -> bind m k s = k a s'.
Proof. unfold bind. by intros ->. Qed.

Lemma bind_Err {S A B} (m : M S A) (k : A -> M S B) s e s' :
  m s = (Err e, s') -> bind m k s = (Err e, s').
Proof. unfold bind. by intros ->. Qed.

Lemma bind_inv {S A B} (m : M S A) (k : A -> M S B) s b s'' :
  bind m k s = (Ok b, s'') ->
  exists a s', m s = (Ok a, s') /\ k a s' = (Ok b, s'').
Proof.
  unfold bind. destruct (m s) as [[a | e] s']; [eauto | discriminate].
Qed.

Lemma lift_inv {S A} (r : result A) (s : St S) a s' :
  lift r s = (Ok a, s') -> r = Ok a /\ s' = s.
Proof. unfold lift. by intros [= -> ->]. Qed.

Lemma io_inv {S A} ev (r : result A) (s : St S) a s' :
  io ev r s = (Ok a, s') -> r = Ok a /\ s' = mkSt (obj s) (trace s ++ [ev]).
Proof. unfold io. by intros [= -> <-]. Qed.

Lemma run_Ok_eta {S} (x : result unit * St S) :
  is_ok (fst x) = true -> x = (Ok tt, snd x).
Proof. destruct x as [[[] | e] s]; [reflexivity | discriminate]. Qed.

Lemma rbind_inv {A B} (r : result A) (k : A -> result B) b :
  rbind r k = Ok b -> exists a, r = Ok a /\ k a = Ok b.
Proof. destruct r; [eauto | discriminate]. Qed.

Section CropErrors.
Context {rio : Rasterio}.

Lemma crop_rejected_mode cropGeom mode (s : St Raster) :
  valid_mode mode = false -> crop cropGeom mode s = (Err mode_error, s).
Proof.
  unfold valid_mode, crop. intros Hm. by rewrite Hm.
Qed.

(** C2.  A mode outside ['match_pixel'], ['match_extent'] makes [crop] raise
    the assertion's error, whatever the geometry; the object (metadata,
    backing dataset, pixel buffer, [isLoaded]) and the I/O log are
    unchanged. *)
Theorem crop_invalid_mode_fails (h : Raster) (tr : list Event)
    (cropGeom : CropGeom) (mode : string) :
  mode ∉ ["match_pixel"; "match_extent"] ->
  crop cropGeom mode (mkSt h tr) = (Err mode_error, mkSt h tr)
  /\ is_configuration_error mode_error = true.
Proof.
  intros Hm. split; [| reflexivity].
  apply crop_rejected_mode. unfold valid_mode. apply bool_decide_eq_false.
  rewrite !elem_of_cons in Hm |- *. tauto.
Qed.

(** C4 (amended).  With a vector geometry, [crop] raises
    [NotImplementedError] when the mode is one of the two accepted strings,
    and the mode assertion's error otherwise; nothing is changed or logged
    either way. *)
Theorem crop_vector_fails (h : Raster) (tr : list Event) (v : Vector) (mode : string) :
  crop (GeomVector v) mode (mkSt h tr)
  = (Err (if valid_mode mode then Raise NotImplementedError "" else mode_error),
     mkSt h tr).
Proof.
  destruct (valid_mode mode) eqn:Hm.
  - unfold crop. fold (valid_mode mode). by rewrite Hm.
  - by apply crop_rejected_mode.
Qed.

(** C7.  A [cropGeom] that is not a [Raster], not a [Vector] and not a list
    or tuple makes [crop] raise a configuration error (the [ValueError] of
    the type check when the mode is accepted, the mode assertion's error
    otherwise) with the object and the I/O log unchanged. *)
Theorem crop_invalid_geom_fails (h : Raster) (tr : list Event) (v : PyVal Foreign)
    (mode : string) :
  is_coordinates v = false ->
  exists e,
    crop (GeomValue v) mode (mkSt h tr) = (Err e, mkSt h tr)
    /\ is_configuration_error e = true
    /\ (valid_mode mode = true ->
        e = Raise ValueError "cropGeom must be a Raster, Vector, or list of coordinates.").
Proof.
  intros Hv. destruct (valid_mode mode) eqn:Hm.
  - eexists. split; [| split; [| reflexivity]].
    + unfold crop. fold (valid_mode mode). rewrite Hm.
      destruct v; first [discriminate Hv | reflexivity].
    + reflexivity.
  - exists mode_error. split; [by apply crop_rejected_mode |]. split; [done | discriminate].
Qed.

End CropErrors.

(** ** Mirroring, loading and replacing the dataset *)

Section Update.
Context {rio : Rasterio}.

Lemma mirror_attrs_inv l r tr s' :
  mirror_attrs l (mkSt r tr) = (Ok tt, s') ->
  has_attrs (ds r) l /\ s' = mkSt (set_mirrored (mirror_map (ds r) l (mirrored r)) r) tr.
Proof.
  revert r. induction l as [| a l IH]; intros r H.
  - injection H as <-. split; [constructor |]. by destruct r.
  - cbn [mirror_attrs] in H.
    apply bind_inv in H as (r0 & s0 & [= <- <-] & H).
    apply bind_inv in H as (v & s1 & H1 & H).
    apply lift_inv in H1 as [Hv ->].
    apply bind_inv in H as ([] & s2 & [= <-] & H).
    cbn [obj trace] in *.
    destruct (ds_getattr (ds r) a) as [v' |] eqn:Ha; [| discriminate].
    injection Hv as ->.
    apply IH in H as [Hl ->]. cbn [setattr ds mirrored] in *.
    split.
    + constructor; [by rewrite Ha | done].
    + unfold mirror_map at 2. cbn [foldl]. rewrite Ha. reflexivity.
Qed.

Lemma mirror_attrs_ok l r tr :
  has_attrs (ds r) l ->
  mirror_attrs l (mkSt r tr)
  = (Ok tt, mkSt (set_mirrored (mirror_map (ds r) l (mirrored r)) r) tr).
Proof.
  revert r. induction l as [| a l IH]; intros r H.
  - by destruct r.
  - apply Forall_cons in H as [[v Ha] Hl].
    cbn [mirror_attrs]. unfold bind at 1. cbn [get_self obj].
    unfold bind at 1, lift at 1. rewrite Ha.
    unfold bind at 1, modify at 1. cbn [obj trace].
    rewrite IH by done. cbn [setattr ds mirrored].
    unfold mirror_map at 2. cbn [foldl]. by rewrite Ha.
Qed.

Lemma mirror_map_cons d a l m :
  mirror_map d (a :: l) m
  = mirror_map d l (match ds_getattr d a with Some v => <[a := v]> m | None => m end).
Proof. reflexivity. Qed.

Lemma mirror_map_notin d l m a :
  a ∉ l -> mirror_map d l m !! a = m !! a.
Proof.
  revert m. induction l as [| b l IH]; intros m Ha; [done |].
  apply not_elem_of_cons in Ha as [Hab Hal].
  rewrite mirror_map_cons, IH by done.
  destruct (ds_getattr d b); [by rewrite lookup_insert_ne | done].
Qed.

Lemma mirror_map_in d l m a :
  has_attrs d l -> a ∈ l -> mirror_map d l m !! a = ds_getattr d a.
Proof.
  revert m. induction l as [| b l IH]; intros m Hd Ha; [by apply elem_of_nil in Ha |].
  apply Forall_cons in Hd as [[v Hb] Hl]. rewrite mirror_map_cons.
  destruct (decide (a ∈ l)) as [Hin | Hout]; [by apply IH |].
  apply elem_of_cons in Ha as [-> | Ha]; [| done].
  by rewrite mirror_map_notin, Hb, lookup_insert_eq.
Qed.

Lemma mirror_map_dom d l m :
  has_attrs d l -> dom (mirror_map d l m) = list_to_set l ∪ dom m.
Proof.
  revert m. induction l as [| b l IH]; intros m Hd.
  - cbn. by rewrite (left_id_L ∅ (∪)).
  - apply Forall_cons in Hd as [[v Hb] Hl].
    rewrite mirror_map_cons, Hb, IH, dom_insert_L by done.
    cbn [list_to_set]. by rewrite (assoc_L (∪)), (comm_L (∪) (list_to_set l)).
Qed.

Lemma load_eq bands r tr :
  load bands (mkSt r tr) =
  match ds_read (ds r) bands with
  | Ok a => (Ok tt, mkSt (set_nbands (nbands_of a) (set_data (Some a) r)) (tr ++ [EvRead]))
  | Err e => (Err e, mkSt r (tr ++ [EvRead]))
  end.
Proof.
  unfold load, bind, get_self, io, nbands_of. cbn [obj trace].
  destruct (ds_read (ds r) bands) as [a | e]; [| reflexivity].
  unfold modify. cbn [obj trace]. by destruct (decide _).
Qed.

Lemma _update_inv imgdata metadata r tr s' :
  _update imgdata metadata (mkSt r tr) = (Ok tt, s') ->
  exists mf0 w mf d,
    MemoryFile_new = Ok mf0 /\ memfile_create mf0 metadata = Ok w /\
    writer_write w imgdata = Ok mf /\ memfile_open mf = Ok d /\
    has_attrs d default_attrs /\
    if isLoaded r then
      exists a, ds_read d None = Ok a /\
        s' = mkSt (set_nbands (nbands_of a) (set_data (Some a) (swapped mf d r)))
                  (tr ++ update_events ++ [EvRead])
    else s' = mkSt (swapped mf d r) (tr ++ update_events).
Proof.
  unfold _update. intros H.
  apply bind_inv in H as (mf0 & s0 & H0 & H). apply io_inv in H0 as [Hmf0 ->].
  apply bind_inv in H as (w & s1 & H1 & H). apply io_inv in H1 as [Hw ->].
  apply bind_inv in H as (mf & s2 & H2 & H). apply io_inv in H2 as [Hmf ->].
  apply bind_inv in H as ([] & s3 & [= <-] & H).
  apply bind_inv in H as (d & s4 & H4 & H). apply io_inv in H4 as [Hd ->].
  apply bind_inv in H as ([] & s5 & [= <-] & H).
  apply bind_inv in H as ([] & s6 & H6 & H).
  cbn [obj trace] in *.
  unfold _read_attrs in H6.
  apply bind_inv in H6 as (l & s7 & H7 & H6).
  apply bind_inv in H7 as ([] & s8 & [= <-] & [= <- <-]).
  cbn [obj trace] in *.
  apply mirror_attrs_inv in H6 as [Hattrs ->].
  apply bind_inv in H as (r' & s9 & [= <- <-] & H).
  cbn [obj trace set_saved_attrs set_ds set_memfile set_mirrored isLoaded ds mirrored
       filename memfile data nbands _saved_attrs] in *.
  exists mf0, w, mf, d. repeat (split; [assumption |]).
  destruct (isLoaded r).
  - rewrite load_eq in H. simpl in H.
    destruct (ds_read d None) as [a | e]; [| discriminate].
    injection H as <-. exists a. split; [done |].
    unfold swapped, update_events. f_equal. by rewrite <- !app_assoc.
  - injection H as <-. unfold swapped, update_events. f_equal. by rewrite <- !app_assoc.
Qed.

Lemma valid_mode_cases mode :
  valid_mode mode = true -> mode = "match_extent" \/ mode = "match_pixel".
Proof.
  unfold valid_mode. intros H%bool_decide_eq_true.
  rewrite !elem_of_cons, elem_of_nil in H. tauto.
Qed.

(** A successful [crop] resolved the extent, computed an image in its mode
    and replaced the dataset through [_update]. *)
Lemma crop_inv cropGeom mode r tr s' :
  crop cropGeom mode (mkSt r tr) = (Ok tt, s') ->
  exists xmin ymin xmax ymax crop_img h w tfm ev,
    geom_bounds cropGeom = Ok (xmin, ymin, xmax, ymax) /\
    crop_image r xmin ymin xmax ymax mode ev crop_img h w tfm /\
    _update crop_img (cropped_meta (ds_meta (ds r)) h w tfm) (mkSt r (tr ++ [ev]))
    = (Ok tt, s').
Proof.
  destruct (valid_mode mode) eqn:Hm;
    [| intros H; by rewrite crop_rejected_mode in H].
  unfold crop. fold (valid_mode mode). rewrite Hm. intros H.
  apply bind_inv in H as ([] & s0 & [= <-] & H).
  apply bind_inv in H as ([[[xmin ymin] xmax] ymax] & s1 & Hg & H).
  assert (geom_bounds cropGeom = Ok (xmin, ymin, xmax, ymax) /\ s1 = mkSt r tr)
    as [Hb ->].
  { destruct cropGeom as [r' | v | v]; cbn [geom_bounds].
    - by apply lift_inv in Hg.
    - discriminate.
    - destruct v; first [discriminate Hg | cbn [is_coordinates]; by apply lift_inv in Hg]. }
  apply bind_inv in H as (self & s2 & [= <- <-] & H). cbn [obj] in H.
  apply bind_inv in H as ([crop_img meta'] & s3 & Hi & H).
  exists xmin, ymin, xmax, ymax, crop_img.
  apply valid_mode_cases in Hm as [-> | ->].
  - rewrite bool_decide_eq_false_2 in Hi by discriminate.
    apply bind_inv in Hi as (transform & ? & [Ht ->]%lift_inv & Hi).
    apply bind_inv in Hi as (window & ? & [Hw ->]%lift_inv & Hi).
    apply bind_inv in Hi as (nh & ? & [Hnh ->]%lift_inv & Hi).
    apply bind_inv in Hi as (nw & ? & [Hnw ->]%lift_inv & Hi).
    apply bind_inv in Hi as (new_tfm & ? & [Htfm ->]%lift_inv & Hi).
    apply bind_inv in Hi as (n & s4 & Hn & Hi).
    assert ((if isLoaded r then Ok (opt_int (nbands r)) else getattr r "count") = Ok n
            /\ s4 = mkSt r tr) as [Hn' ->].
    { destruct (isLoaded r); [by injection Hn as <- <- | by apply lift_inv in Hn]. }
    apply bind_inv in Hi as (src & ? & [Hsrc ->]%lift_inv & Hi).
    apply bind_inv in Hi as (new_img & ? & [Himg ->]%lift_inv & Hi).
    apply bind_inv in Hi as (transform' & ? & [Ht' ->]%lift_inv & Hi).
    apply bind_inv in Hi as (crs & ? & [Hcrs ->]%lift_inv & Hi).
    apply bind_inv in Hi as ([crop_img' tfm] & ? & [Hr ->]%io_inv & Hi).
    injection Hi as -> <- <-. cbn [obj trace] in H.
    rewrite Ht in Ht'. injection Ht' as <-.
    exists nh, nw, tfm, EvReproject. split; [done |]. split; [| done].
    destruct (data r) as [a |] eqn:Hd; [| discriminate]. injection Hsrc as ->.
    by eapply crop_match_extent.
  - rewrite bool_decide_eq_true_2 in Hi by done.
    apply bind_inv in Hi as (bbox & ? & [Hp ->]%lift_inv & Hi).
    apply bind_inv in Hi as ([crop_img' tfm] & ? & [Hk ->]%io_inv & Hi).
    apply bind_inv in Hi as (h & ? & [Hh ->]%lift_inv & Hi).
    apply bind_inv in Hi as (w & ? & [Hw ->]%lift_inv & Hi).
    injection Hi as -> <- <-. cbn [obj trace] in H.
    exists h, w, tfm, EvMask. split; [done |]. split; [| done].
    destruct (arr_shape crop_img !! 1%nat) as [h' |] eqn:Hh'; [| discriminate].
    destruct (arr_shape crop_img !! 2%nat) as [w' |] eqn:Hw'; [| discriminate].
    injection Hh as ->. injection Hw as ->.
    by eapply crop_match_pixel.
Qed.

End Update.

(** ** Cropping *)

Section CropEffects.
Context {rio : Rasterio}.

Abbreviation val := (PyVal Foreign).

Lemma bind_lift {S A B} (r : result A) (k : A -> M S B) s :
  bind (lift r) k s = match r with Ok a => k a s | Err e => (Err e, s) end.
Proof. unfold bind, lift. by destruct r. Qed.

(** C3.  After a successful [crop] in either mode, [isLoaded] is what it was
    before; if it is true, the pixel buffer is the array read back from the
    new backing dataset, the one opened from the memory file the cropped
    image was written to. *)
Theorem crop_keeps_isLoaded (h : Raster) (tr : list Event) (cropGeom : CropGeom)
    (mode : string) (s' : St Raster) :
  crop cropGeom mode (mkSt h tr) = (Ok tt, s') ->
  isLoaded (obj s') = isLoaded h
  /\ (isLoaded h = true ->
      exists a, ds_read (ds (obj s')) None = Ok a /\ data (obj s') = Some a)
  /\ (exists xmin ymin xmax ymax ev crop_img height width tfm mf0 w,
        crop_image h xmin ymin xmax ymax mode ev crop_img height width tfm
        /\ MemoryFile_new = Ok mf0
        /\ memfile_create mf0 (cropped_meta (ds_meta (ds h)) height width tfm) = Ok w
        /\ writer_write w crop_img = Ok (memfile (obj s'))
        /\ memfile_open (memfile (obj s')) = Ok (ds (obj s'))).
Proof.
  intros H.
  apply crop_inv in H
    as (xmin & ymin & xmax & ymax & crop_img & hh & ww & tfm & ev & Hb & Hc & H).
  apply _update_inv in H as (mf0 & w & mf & d & Hmf0 & Hw & Hmf & Hd & Hattrs & H).
  destruct (isLoaded h) eqn:Hl.
  - destruct H as (a & Ha & ->). cbn [obj]. simpl.
    split; [done |]. split; [by eauto |].
    exists xmin, ymin, xmax, ymax, ev, crop_img, hh, ww, tfm, mf0, w.
    repeat (split; [assumption |]); assumption.
  - subst s'. simpl. split; [done |]. split; [discriminate |].
    exists xmin, ymin, xmax, ymax, ev, crop_img, hh, ww, tfm, mf0, w.
    repeat (split; [assumption |]); assumption.
Qed.

Lemma cropped_meta_lookup (meta : gmap string val) hh ww tfm k :
  k ∉ ["height"; "width"; "transform"] ->
  cropped_meta meta hh ww tfm !! k = meta !! k.
Proof.
  rewrite !not_elem_of_cons. intros (? & ? & ? & _).
  unfold cropped_meta. by rewrite !lookup_insert_ne.
Qed.

(** C10.  After a successful [crop] in either mode, the metadata the new
    backing dataset is created from is the old dataset's metadata with only
    [height], [width] and [transform] replaced; so its CRS, nodata value,
    driver and dtype are the pre-crop ones, and, the factory reporting what
    a dataset was created with, so are those of the new backing dataset. *)
Theorem crop_keeps_metadata {factory : FactoryKeepsMeta} (h : Raster) (tr : list Event)
    (cropGeom : CropGeom) (mode : string) (s' : St Raster) :
  crop cropGeom mode (mkSt h tr) = (Ok tt, s') ->
  exists metadata mf0 w crop_img,
    MemoryFile_new = Ok mf0
    /\ memfile_create mf0 metadata = Ok w
    /\ writer_write w crop_img = Ok (memfile (obj s'))
    /\ memfile_open (memfile (obj s')) = Ok (ds (obj s'))
    /\ (forall k, k ∉ ["height"; "width"; "transform"] ->
        metadata !! k = ds_meta (ds h) !! k)
    /\ (forall k, k ∈ ["crs"; "nodata"; "driver"; "dtype"] ->
        metadata !! k = ds_meta (ds h) !! k
        /\ ds_meta (ds (obj s')) !! k = ds_meta (ds h) !! k).
Proof.
  intros H.
  apply crop_inv in H
    as (xmin & ymin & xmax & ymax & crop_img & hh & ww & tfm & ev & Hb & Hc & H).
  apply _update_inv in H as (mf0 & w & mf & d & Hmf0 & Hw & Hmf & Hd & Hattrs & H).
  assert (memfile (obj s') = mf /\ ds (obj s') = d) as [-> ->].
  { destruct (isLoaded h); [destruct H as (a & _ & ->) | subst s']; done. }
  exists (cropped_meta (ds_meta (ds h)) hh ww tfm), mf0, w, crop_img.
  repeat (split; [assumption |]).
  split; [intros k; apply cropped_meta_lookup |].
  intros k Hk.
  assert (cropped_meta (ds_meta (ds h)) hh ww tfm !! k = ds_meta (ds h) !! k) as Hkeep.
  { apply cropped_meta_lookup. rewrite !elem_of_cons, elem_of_nil in Hk.
    rewrite !not_elem_of_cons.
    destruct Hk as [-> | [-> | [-> | [-> | []]]]]; repeat split; try discriminate;
      apply not_elem_of_nil. }
  split; [done |].
  rewrite <- Hkeep. by eapply factory_keeps_meta.
Qed.

Lemma bind_fails {S A B} (m : M S A) (k : A -> M S B) s :
  (exists e, m s = (Err e, s)) -> exists e, bind m k s = (Err e, s).
Proof. intros [e He]. exists e. by apply bind_Err. Qed.

Lemma bind_lift_fails {S A B} (r : result A) (k : A -> M S B) s :
  (forall a, r = Ok a -> exists e, k a s = (Err e, s)) ->
  exists e, bind (lift r) k s = (Err e, s).
Proof. intros Hk. rewrite bind_lift. destruct r as [a | e]; [by apply Hk | by eauto]. Qed.

(** Without a pixel buffer, [crop] in ['match_extent'] mode never reaches
    [_update]: it raises, and neither the object nor the log changes. *)
Lemma crop_match_extent_no_data cropGeom (h : Raster) (tr : list Event) :
  data h = None ->
  exists e, crop cropGeom "match_extent" (mkSt h tr) = (Err e, mkSt h tr).
Proof.
  intros Hd. unfold crop.
  rewrite bool_decide_eq_true_2 by (apply elem_of_cons; by left).
  rewrite bool_decide_eq_false_2 by discriminate.
  unfold assert_. rewrite (bind_Ok _ _ _ tt (mkSt h tr)) by reflexivity.
  destruct cropGeom as [r | v | v];
    [ | unfold bind, raise; by eauto
      | destruct v; try (unfold bind, raise; by eauto) ].
  all: apply bind_lift_fails; intros [[[xmin ymin] xmax] ymax] _.
  all: rewrite (bind_Ok _ _ _ h (mkSt h tr)) by reflexivity.
  all: apply bind_fails.
  all: do 5 (apply bind_lift_fails; intros ? _).
  all: cbn [obj]; rewrite Hd.
  all: destruct (isLoaded h);
    [ rewrite (bind_Ok _ _ _ (opt_int (nbands h)) (mkSt h tr)) by reflexivity
    | apply bind_lift_fails; intros n _ ].
  all: rewrite bind_lift; by eauto.
Qed.

(** C1.  On a handle with no pixel buffer, [crop] in ['match_extent'] mode
    does not succeed: it raises before any dataset is touched, and leaves
    the object and the I/O log as they were. *)
Theorem crop_match_extent_unloaded_raises (h : Raster) (tr : list Event)
    (cropGeom : CropGeom) :
  data h = None ->
  exists e,
    crop cropGeom "match_extent" (mkSt h tr) = (Err e, mkSt h tr)
    /\ is_ok (fst (crop cropGeom "match_extent" (mkSt h tr))) = false.
Proof.
  intros Hd. destruct (crop_match_extent_no_data cropGeom h tr Hd) as [e He].
  exists e. by rewrite He.
Qed.

(** After a successful [crop], every default attribute mirrored on the
    handle is the new backing dataset's value for it. *)
Theorem crop_refreshes_default_attrs (h : Raster) (tr : list Event) (cropGeom : CropGeom)
    (mode : string) (s' : St Raster) :
  crop cropGeom mode (mkSt h tr) = (Ok tt, s') ->
  _saved_attrs (obj s') = default_attrs
  /\ (forall a, a ∈ default_attrs ->
      exists v, ds_getattr (ds (obj s')) a = Some v /\ mirrored (obj s') !! a = Some v)
  /\ (forall a, a ∉ default_attrs -> mirrored (obj s') !! a = mirrored h !! a).
Proof.
  intros H.
  apply crop_inv in H
    as (xmin & ymin & xmax & ymax & crop_img & hh & ww & tfm & ev & Hb & Hc & H).
  apply _update_inv in H as (mf0 & w & mf & d & Hmf0 & Hw & Hmf & Hd & Hattrs & H).
  assert (ds (obj s') = d /\ _saved_attrs (obj s') = default_attrs
          /\ mirrored (obj s') = mirror_map d default_attrs (mirrored h))
    as (-> & -> & ->).
  { destruct (isLoaded h); [destruct H as (a & _ & ->) | subst s']; done. }
  split; [reflexivity |]. split.
  - intros a Ha. destruct (proj1 (Forall_forall _ _) Hattrs a Ha) as [v Hv].
    exists v. split; [exact Hv |]. by rewrite (mirror_map_in _ _ _ _ Hattrs Ha).
  - intros a Ha. by apply mirror_map_notin.
Qed.

(** [load] does not set [isLoaded]: on a handle constructed without loading
    data, a successful [crop] leaves the pixel buffer and band count of an
    earlier [load] call as they were. *)
Theorem crop_not_loaded_keeps_buffer (h : Raster) (tr : list Event) (cropGeom : CropGeom)
    (mode : string) (s' : St Raster) :
  isLoaded h = false ->
  crop cropGeom mode (mkSt h tr) = (Ok tt, s') ->
  data (obj s') = data h /\ nbands (obj s') = nbands h.
Proof.
  intros Hl H.
  apply crop_inv in H
    as (xmin & ymin & xmax & ymax & crop_img & hh & ww & tfm & ev & Hb & Hc & H).
  apply _update_inv in H as (mf0 & w & mf & d & Hmf0 & Hw & Hmf & Hd & Hattrs & H).
  rewrite Hl in H. by subst s'.
Qed.

End CropEffects.

Section Buffer.
Context {rio : Rasterio}.

(** C5.  On a handle constructed without loading data, [crop] with the
    tuple [(0, 0, 10, 10)] in ['match_extent'] mode computes the pixel window
    and its truncated height and width, and then raises [AttributeError] on
    [self.data.dtype]: the handle keeps its bounds and has no pixel buffer. *)
Theorem crop_extent_tuple_unloaded_raises (h : Raster) (tr : list Event)
    (transform : PyVal Foreign) (window : Window) (new_height new_width : Z)
    (new_tfm count : PyVal Foreign) :
  data h = None ->
  isLoaded h = false ->
  getattr h "transform" = Ok transform ->
  windows_from_bounds (VInt 0) (VInt 0) (VInt 10) (VInt 10) transform = Ok window ->
  py_int (height window) = Ok new_height ->
  py_int (width window) = Ok new_width ->
  transform_from_bounds (VInt 0) (VInt 0) (VInt 10) (VInt 10) new_width new_height
  = Ok new_tfm ->
  getattr h "count" = Ok count ->
  crop (GeomValue (VTuple [VInt 0; VInt 0; VInt 10; VInt 10])) "match_extent" (mkSt h tr)
  = (Err (Raise AttributeError "'NoneType' object has no attribute 'dtype'"), mkSt h tr).
Proof.
  intros Hd Hl Ht Hw Hnh Hnw Htfm Hc. unfold crop.
  rewrite bool_decide_eq_true_2 by (apply elem_of_cons; by left).
  rewrite bool_decide_eq_false_2 by discriminate.
  unfold assert_. rewrite (bind_Ok _ _ _ tt (mkSt h tr)) by reflexivity.
  rewrite bind_lift. cbn [unpack4 py_iter rbind].
  rewrite (bind_Ok _ _ _ h (mkSt h tr)) by reflexivity.
  apply bind_Err.
  rewrite bind_lift, Ht, bind_lift, Hw, bind_lift, Hnh, bind_lift, Hnw, bind_lift, Htfm.
  rewrite Hl, bind_lift, Hc, bind_lift, Hd. reflexivity.
Qed.

(** C6 (amended).  Without a pixel buffer, [info] with statistics requested
    is [info] without them: the same summary, or the same exception when the
    summary itself cannot be formatted. *)
Theorem info_stats_without_buffer (h : Raster) :
  data h = None -> info true h = info false h.
Proof.
  intros Hd. unfold info. by rewrite Hd.
Qed.

(** C8.  [load] sets the band count from the array it has just read: 1 for a
    two-dimensional array, the leading dimension for a three-dimensional
    one; the band count and buffer held before the call play no part. *)
Theorem load_recomputes_nbands (h : Raster) (tr : list Event)
    (bands : option (PyVal Foreign)) (a : NDArray) :
  ds_read (ds h) bands = Ok a ->
  exists h',
    load bands (mkSt h tr) = (Ok tt, mkSt h' (tr ++ [EvRead]))
    /\ data h' = Some a
    /\ (forall rows cols, arr_shape a = [rows; cols] -> nbands h' = Some 1)
    /\ (forall n rows cols, arr_shape a = [n; rows; cols] -> nbands h' = Some n)
    /\ (forall n0 a0 tr0,
         nbands (obj (snd (load bands (mkSt (set_nbands n0 (set_data a0 h)) tr0))))
         = nbands h').
Proof.
  intros Ha. eexists. rewrite load_eq, Ha. split; [reflexivity |]. simpl.
  split; [reflexivity |]. unfold nbands_of.
  split; [by intros rows cols -> |]. split; [by intros n rows cols -> |].
  intros n0 a0 tr0. rewrite load_eq. simpl. by rewrite Ha.
Qed.

End Buffer.

(** ** Construction *)

Section Construction.
Context {rio : Rasterio}.

Lemma append_defaults_elem (attrs : list string) a :
  a ∈ append_defaults attrs <-> a ∈ attrs \/ a ∈ default_attrs.
Proof.
  unfold append_defaults. generalize default_attrs as defaults.
  intros defaults. revert attrs.
  induction defaults as [| b defaults IH]; intros attrs; cbn [foldl].
  - rewrite elem_of_nil. tauto.
  - rewrite IH, elem_of_cons. destruct (decide (b ∈ attrs)) as [Hb | Hb].
    + split; [tauto |]. intros [? | [-> | ?]]; tauto.
    + rewrite elem_of_app, list_elem_of_singleton. tauto.
Qed.

Lemma _read_attrs_AttrsList (l : list string) :
  _read_attrs (AttrsList l)
  = (let* attrs := (run modify (set_saved_attrs (append_defaults l)) in
                    ret (append_defaults l)) in
     mirror_attrs attrs).
Proof. reflexivity. Qed.

(** The object the constructor builds once the dataset [d] is open. *)
Lemma init_body_inv attrs (load_data : bool) bands (r0 : Raster) tr (s' : St Raster) :
  (run _read_attrs (AttrsList attrs) in
   if load_data then
     run load bands in
     modify (set_isLoaded true)
   else
     run modify (set_data None) in
     run modify (set_nbands None) in
     modify (set_isLoaded false)) (mkSt r0 tr) = (Ok tt, s') ->
  has_attrs (ds r0) (append_defaults attrs)
  /\ ds (obj s') = ds r0
  /\ _saved_attrs (obj s') = append_defaults attrs
  /\ mirrored (obj s') = mirror_map (ds r0) (append_defaults attrs) (mirrored r0).
Proof.
  rewrite _read_attrs_AttrsList. generalize (append_defaults attrs) as l0.
  intros l0 H. apply bind_inv in H as ([] & s1 & H1 & H).
  apply bind_inv in H1 as (l & s2 & H2 & H1).
  apply bind_inv in H2 as ([] & s3 & [= <-] & [= <- <-]). cbn [obj trace] in H1.
  apply mirror_attrs_inv in H1 as [Hattrs ->].
  cbn [ds set_saved_attrs mirrored] in *.
  split; [exact Hattrs |].
  destruct load_data.
  - apply bind_inv in H as ([] & s4 & H4 & [= <-]).
    rewrite load_eq in H4. simpl in H4.
    destruct (ds_read (ds r0) bands); [| discriminate]. injection H4 as <-.
    repeat split.
  - apply bind_inv in H as ([] & s4 & [= <-] & H).
    apply bind_inv in H as ([] & s5 & [= <-] & [= <-]). repeat split.
Qed.

Lemma Raster_init_inv fname attrs load_data bands tr (h : Raster) (s' : St unit) :
  Raster_init fname attrs load_data bands (mkSt tt tr) = (Ok h, s') ->
  exists f mf d tr',
    fs_open fname = Ok f /\ MemoryFile_of_file f = Ok mf /\ memfile_open mf = Ok d
    /\ (run _read_attrs attrs in
        if load_data then
          run load bands in
          modify (set_isLoaded true)
        else
          run modify (set_data None) in
          run modify (set_nbands None) in
          modify (set_isLoaded false))
         (mkSt (mkRaster (Some (abspath fname)) mf d None None false [] ∅)
               (tr ++ [EvOpenFile fname; EvMemoryFile; EvOpen]))
       = (Ok tt, mkSt h tr').
Proof.
  unfold Raster_init. intros H.
  apply bind_inv in H as (f & ? & [Hf ->]%io_inv & H).
  apply bind_inv in H as (mf & ? & [Hmf ->]%io_inv & H).
  apply bind_inv in H as (d & ? & [Hd ->]%io_inv & H).
  apply bind_inv in H as ([[] self] & s1 & H1 & [= <- <-]).
  unfold on_object in H1. cbn [obj trace] in H1.
  rewrite <- !app_assoc in H1. cbn [app] in H1.
  match type of H1 with
  | context [?m (mkSt ?r0 ?tr0)] =>
      destruct (m (mkSt r0 tr0)) as [[[] | e] [h' tr']] eqn:Hbody; [| discriminate]
  end.
  injection H1 as <- _. exists f, mf, d, tr'. repeat (split; [assumption |]). exact Hbody.
Qed.

(** C9.  Whatever list of attribute names the caller passes, a handle the
    constructor returns mirrors exactly the names of that list and of the
    default set, each with the value the opened dataset has for it. *)
Theorem init_mirrors_attributes (fname : string) (attrs : list string) (load_data : bool)
    (bands : option (PyVal Foreign)) (tr : list Event) (h : Raster) (s' : St unit) :
  Raster_init fname (AttrsList attrs) load_data bands (mkSt tt tr) = (Ok h, s') ->
  dom (mirrored h) = list_to_set attrs ∪ list_to_set default_attrs
  /\ (forall a, a ∈ _saved_attrs h <-> a ∈ attrs \/ a ∈ default_attrs)
  /\ (forall a, a ∈ attrs \/ a ∈ default_attrs ->
      exists v, ds_getattr (ds h) a = Some v /\ mirrored h !! a = Some v)
  /\ (exists f mf,
        fs_open fname = Ok f /\ MemoryFile_of_file f = Ok mf
        /\ memfile_open mf = Ok (ds h)).
Proof.
  intros H. apply Raster_init_inv in H as (f & mf & d & tr' & Hf & Hmf & Hd & Hbody).
  apply init_body_inv in Hbody as (Hattrs & Hds & Hsaved & Hmirror).
  pose proof (append_defaults_elem attrs) as Helem.
  revert Hattrs Hsaved Hmirror Helem. generalize (append_defaults attrs) as l0.
  intros l0 Hattrs Hsaved Hmirror Helem.
  cbn [obj ds mirrored] in *. rewrite Hds, Hsaved, Hmirror.
  split; [| split; [exact Helem | split]].
  - rewrite (mirror_map_dom _ _ _ Hattrs), dom_empty_L, (right_id_L ∅ (∪)).
    apply set_eq. intros a.
    rewrite elem_of_union, !elem_of_list_to_set. apply Helem.
  - intros a Ha. apply Helem in Ha.
    destruct (proj1 (Forall_forall _ _) Hattrs a Ha) as [v Hv].
    exists v. split; [exact Hv |]. rewrite (mirror_map_in _ _ _ _ Hattrs Ha). exact Hv.
  - exists f, mf. repeat split; assumption.
Qed.

Lemma has_attrs_append_defaults d (attrs : list string) :
  has_attrs d attrs -> has_attrs d default_attrs -> has_attrs d (append_defaults attrs).
Proof.
  unfold has_attrs. rewrite !Forall_forall. intros Ha Hd a Hin.
  apply append_defaults_elem in Hin as [Hin | Hin]; [by apply Ha | by apply Hd].
Qed.

(** The constructor returns a handle whenever the file opens as a dataset
    that has the attributes asked for and the default ones, and, if data is
    to be loaded, the bands can be read. *)
Theorem Raster_init_returns (fname : string) (attrs : list string) (load_data : bool)
    (bands : option (PyVal Foreign)) (tr : list Event) f mf d :
  fs_open fname = Ok f ->
  MemoryFile_of_file f = Ok mf ->
  memfile_open mf = Ok d ->
  has_attrs d attrs ->
  has_attrs d default_attrs ->
  (load_data = true -> is_ok (ds_read d bands) = true) ->
  exists h tr',
    Raster_init fname (AttrsList attrs) load_data bands (mkSt tt tr) = (Ok h, mkSt tt tr')
    /\ ds h = d /\ isLoaded h = load_data /\ filename h = Some (abspath fname).
Proof.
  intros Hf Hmf Hd Hattrs Hdef Hread.
  pose proof (has_attrs_append_defaults d attrs Hattrs Hdef) as Hall.
  unfold Raster_init.
  rewrite (bind_Ok _ _ _ f (mkSt tt (tr ++ [EvOpenFile fname])))
    by (unfold io; by rewrite Hf).
  rewrite (bind_Ok _ _ _ mf (mkSt tt ((tr ++ [EvOpenFile fname]) ++ [EvMemoryFile])))
    by (unfold io; by rewrite Hmf).
  rewrite (bind_Ok _ _ _ d
             (mkSt tt (((tr ++ [EvOpenFile fname]) ++ [EvMemoryFile]) ++ [EvOpen])))
    by (unfold io; by rewrite Hd).
  rewrite _read_attrs_AttrsList. revert Hall. generalize (append_defaults attrs) as l0.
  intros l0 Hall. unfold bind at 1, on_object. cbn [obj trace].
  unfold bind at 1. unfold bind at 1. unfold bind at 1, modify at 1, ret at 1.
  cbn [obj trace]. rewrite mirror_attrs_ok by exact Hall.
  destruct load_data.
  - unfold bind at 1. rewrite load_eq. simpl.
    destruct (ds_read d bands) as [a | e]; [| by specialize (Hread eq_refl)].
    eexists _, _. split; [reflexivity |]. repeat split.
  - eexists _, _. split; [reflexivity |]. repeat split.
Qed.

End Construction.

(** ** The properties on concrete handles *)

Section Concrete.
#[local] Existing Instance Toy.lib.

(** The toy factory keeps the metadata a dataset is created with. *)
#[local] Instance toy_factory_keeps_meta : FactoryKeepsMeta.
Proof.
  intros mf0 meta w img mf d k Hw Hmf Hd _. cbn in Hw, Hmf, Hd |- *.
  unfold Toy.create in Hw. destruct mf0; [discriminate |].
  destruct (bool_decide _); [| discriminate]. injection Hw as <-.
  unfold Toy.write in Hmf.
  destruct (Toy.int_of meta "count"), (Toy.int_of meta "height"), (Toy.int_of meta "width");
    try discriminate.
  destruct (bool_decide _); [| discriminate]. injection Hmf as <-.
  by injection Hd as <-.
Qed.

(** The constructor builds the two sample handles. *)
Example init_unloaded :
  Raster_init "landsat_B4_crop.tif" AttrsNone false None (mkSt tt [])
  = (Ok Toy.unloaded, mkSt tt [EvOpenFile "landsat_B4_crop.tif"; EvMemoryFile; EvOpen]).
Proof. reflexivity. Qed.

Example init_loaded :
  Raster_init "landsat_B4_crop.tif" AttrsNone true None (mkSt tt [])
  = (Ok Toy.loaded,
     mkSt tt [EvOpenFile "landsat_B4_crop.tif"; EvMemoryFile; EvOpen; EvRead]).
Proof. reflexivity. Qed.

(** On the loaded handle both modes succeed; ['match_extent'] gives the
    requested bounds, ['match_pixel'] the touched pixels' bounds. *)
Example crop_loaded_match_extent :
  let '(r, s) := crop Toy.extent "match_extent" (mkSt Toy.loaded []) in
  r = Ok tt
  /\ mirrored (obj s) !! "bounds" = Some (VTuple [VInt 0; VInt 0; VInt 10; VInt 10])
  /\ (arr_shape <$> data (obj s)) = Some [1; 2; 2]
  /\ trace s = [EvReproject; EvMemoryFile; EvCreate; EvWrite; EvOpen; EvRead].
Proof. vm_compute. repeat split. Qed.

Example crop_loaded_match_pixel :
  let '(r, s) :=
    crop (GeomValue (VList [VInt 3; VInt 3; VInt 12; VInt 11])) "match_pixel"
         (mkSt Toy.loaded []) in
  r = Ok tt
  /\ mirrored (obj s) !! "bounds" = Some (VTuple [VInt 0; VInt 0; VInt 15; VInt 15])
  /\ (arr_shape <$> data (obj s)) = Some [1; 3; 3]
  /\ trace s = [EvMask; EvMemoryFile; EvCreate; EvWrite; EvOpen; EvRead].
Proof. vm_compute. repeat split. Qed.

Lemma crop_match_extent_unloaded_raises_witness :
  data Toy.unloaded = None
  /\ exists e,
       crop Toy.extent "match_extent" (mkSt Toy.unloaded []) = (Err e, mkSt Toy.unloaded [])
       /\ is_ok (fst (crop Toy.extent "match_extent" (mkSt Toy.unloaded []))) = false.
Proof.
  split; [reflexivity |].
  apply (crop_match_extent_unloaded_raises Toy.unloaded [] Toy.extent). reflexivity.
Defined.

Lemma crop_invalid_mode_fails_witness :
  ("nearest" ∉ ["match_pixel"; "match_extent"])
  /\ crop Toy.extent "nearest" (mkSt Toy.loaded []) = (Err mode_error, mkSt Toy.loaded [])
  /\ is_configuration_error mode_error = true.
Proof.
  assert ("nearest" ∉ ["match_pixel"; "match_extent"]) as Hm.
  { rewrite !not_elem_of_cons. repeat split; [discriminate | discriminate |].
    apply not_elem_of_nil. }
  split; [exact Hm |].
  exact (crop_invalid_mode_fails Toy.loaded [] Toy.extent "nearest" Hm).
Defined.

Lemma crop_keeps_isLoaded_witness :
  crop Toy.extent "match_extent" (mkSt Toy.loaded [])
  = (Ok tt, snd (crop Toy.extent "match_extent" (mkSt Toy.loaded [])))
  /\ isLoaded (obj (snd (crop Toy.extent "match_extent" (mkSt Toy.loaded []))))
     = isLoaded Toy.loaded.
Proof.
  assert (crop Toy.extent "match_extent" (mkSt Toy.loaded [])
          = (Ok tt, snd (crop Toy.extent "match_extent" (mkSt Toy.loaded [])))) as H.
  { apply run_Ok_eta. vm_compute. reflexivity. }
  split; [exact H |].
  exact (proj1 (crop_keeps_isLoaded Toy.loaded [] Toy.extent "match_extent" _ H)).
Defined.

(** C4 (as stated) fails: with a mode outside the two accepted strings a
    vector geometry meets the mode assertion, not [NotImplementedError]. *)
Lemma crop_vector_bad_mode_counterexample :
  crop (GeomVector tt) "nearest" (mkSt Toy.loaded [])
  = (Err (Raise AssertionError "mode must be one of 'match_pixel', 'match_extent'"),
     mkSt Toy.loaded [])
  /\ AssertionError <> NotImplementedError.
Proof. split; [reflexivity | discriminate]. Qed.

Lemma crop_extent_tuple_unloaded_raises_witness :
  (data Toy.unloaded = None
   /\ isLoaded Toy.unloaded = false
   /\ getattr Toy.unloaded "transform" = Ok (VForeign (Toy.TAffine 5 0 (-5) 150))
   /\ windows_from_bounds (VInt 0) (VInt 0) (VInt 10) (VInt 10)
        (VForeign (Toy.TAffine 5 0 (-5) 150))
      = Ok (mkWindow (Toy.ratio 0 5) (Toy.ratio 140 5) (Toy.ratio 10 5) (Toy.ratio 10 5))
   /\ py_int (Toy.ratio 10 5) = Ok 2
   /\ transform_from_bounds (VInt 0) (VInt 0) (VInt 10) (VInt 10) 2 2
      = Ok (VForeign (Toy.TAffine 5 0 (-5) 10))
   /\ getattr Toy.unloaded "count" = Ok (VInt 1))
  /\ crop Toy.extent "match_extent" (mkSt Toy.unloaded [])
     = (Err (Raise AttributeError "'NoneType' object has no attribute 'dtype'"),
        mkSt Toy.unloaded []).
Proof.
  split; [repeat split |].
  exact (crop_extent_tuple_unloaded_raises Toy.unloaded []
           (VForeign (Toy.TAffine 5 0 (-5) 150))
           (mkWindow (Toy.ratio 0 5) (Toy.ratio 140 5) (Toy.ratio 10 5) (Toy.ratio 10 5))
           2 2 (VForeign (Toy.TAffine 5 0 (-5) 10)) (VInt 1)
           eq_refl eq_refl eq_refl eq_refl eq_refl eq_refl eq_refl eq_refl).
Defined.

Lemma info_stats_without_buffer_witness :
  data Toy.unloaded = None /\ info true Toy.unloaded = info false Toy.unloaded.
Proof.
  split; [reflexivity |]. exact (info_stats_without_buffer Toy.unloaded eq_refl).
Defined.

(** C6 (as stated) fails: on the handle constructed without loading data,
    [info] with statistics requested returns the summary. *)
Lemma info_stats_unloaded_counterexample :
  info true Toy.unloaded
  = Ok ("Driver:             GTiff " +:+ nl
        +:+ "File on disk:       /data/landsat_B4_crop.tif " +:+ nl
        +:+ "RIO MemoryFile:     /vsimem/toy.tif" +:+ nl
        +:+ "Size:               40, 30" +:+ nl
        +:+ "Coordinate System:  EPSG:32645" +:+ nl
        +:+ "NoData Value:       None" +:+ nl
        +:+ "Pixel Size:         5, 5" +:+ nl
        +:+ "Upper Left Corner:  0, 0" +:+ nl
        +:+ "Lower Right Corner: 200, 150" +:+ nl)
  /\ is_ok (info true Toy.unloaded) = true.
Proof. split; vm_compute; reflexivity. Qed.

Lemma crop_invalid_geom_fails_witness :
  is_coordinates (VStr "0,0,10,10" : PyVal Foreign) = false
  /\ exists e,
       crop (GeomValue (VStr "0,0,10,10")) "match_pixel" (mkSt Toy.loaded [])
       = (Err e, mkSt Toy.loaded [])
       /\ is_configuration_error e = true
       /\ (valid_mode "match_pixel" = true ->
           e = Raise ValueError "cropGeom must be a Raster, Vector, or list of coordinates.").
Proof.
  split; [reflexivity |].
  exact (crop_invalid_geom_fails Toy.loaded [] (VStr "0,0,10,10") "match_pixel" eq_refl).
Defined.

Lemma load_recomputes_nbands_witness :
  ds_read (ds Toy.unloaded) None = Ok (Toy.mkArray [1; 30; 40] "uint8" 7)
  /\ exists h',
       load None (mkSt Toy.unloaded []) = (Ok tt, mkSt h' ([] ++ [EvRead]))
       /\ data h' = Some (Toy.mkArray [1; 30; 40] "uint8" 7)
       /\ (forall rows cols,
            arr_shape (Toy.mkArray [1; 30; 40] "uint8" 7) = [rows; cols] ->
            nbands h' = Some 1)
       /\ (forall n rows cols,
            arr_shape (Toy.mkArray [1; 30; 40] "uint8" 7) = [n; rows; cols] ->
            nbands h' = Some n)
       /\ (forall n0 a0 tr0,
            nbands (obj (snd (load None (mkSt (set_nbands n0 (set_data a0 Toy.unloaded)) tr0))))
            = nbands h').
Proof.
  split; [reflexivity |].
  exact (load_recomputes_nbands Toy.unloaded [] None (Toy.mkArray [1; 30; 40] "uint8" 7)
           eq_refl).
Defined.

Lemma init_mirrors_attributes_witness :
  Raster_init "landsat_B4_crop.tif" (AttrsList ["transform"; "name"]) false None (mkSt tt [])
  = (Ok (set_saved_attrs (append_defaults ["transform"; "name"]) Toy.unloaded),
     mkSt tt [EvOpenFile "landsat_B4_crop.tif"; EvMemoryFile; EvOpen])
  /\ dom (mirrored (set_saved_attrs (append_defaults ["transform"; "name"]) Toy.unloaded))
     = list_to_set ["transform"; "name"] ∪ list_to_set default_attrs.
Proof.
  assert (Raster_init "landsat_B4_crop.tif" (AttrsList ["transform"; "name"]) false None
            (mkSt tt [])
          = (Ok (set_saved_attrs (append_defaults ["transform"; "name"]) Toy.unloaded),
             mkSt tt [EvOpenFile "landsat_B4_crop.tif"; EvMemoryFile; EvOpen])) as H.
  { reflexivity. }
  split; [exact H |].
  exact (proj1 (init_mirrors_attributes _ _ _ _ _ _ _ H)).
Defined.

Lemma crop_keeps_metadata_witness :
  crop (GeomValue (VList [VInt 3; VInt 3; VInt 12; VInt 11])) "match_pixel"
       (mkSt Toy.loaded [])
  = (Ok tt, snd (crop (GeomValue (VList [VInt 3; VInt 3; VInt 12; VInt 11])) "match_pixel"
                      (mkSt Toy.loaded [])))
  /\ exists metadata mf0 w crop_img,
       MemoryFile_new = Ok mf0
       /\ memfile_create mf0 metadata = Ok w
       /\ writer_write w crop_img
          = Ok (memfile (obj (snd (crop (GeomValue (VList [VInt 3; VInt 3; VInt 12; VInt 11]))
                                        "match_pixel" (mkSt Toy.loaded [])))))
       /\ memfile_open
            (memfile (obj (snd (crop (GeomValue (VList [VInt 3; VInt 3; VInt 12; VInt 11]))
                                     "match_pixel" (mkSt Toy.loaded [])))))
          = Ok (ds (obj (snd (crop (GeomValue (VList [VInt 3; VInt 3; VInt 12; VInt 11]))
                                   "match_pixel" (mkSt Toy.loaded [])))))
       /\ (forall k, k ∉ ["height"; "width"; "transform"] ->
           metadata !! k = ds_meta (ds Toy.loaded) !! k)
       /\ (forall k, k ∈ ["crs"; "nodata"; "driver"; "dtype"] ->
           metadata !! k = ds_meta (ds Toy.loaded) !! k
           /\ ds_meta (ds (obj (snd (crop (GeomValue (VList [VInt 3; VInt 3; VInt 12; VInt 11]))
                                          "match_pixel" (mkSt Toy.loaded []))))) !! k
              = ds_meta (ds Toy.loaded) !! k).
Proof.
  assert (crop (GeomValue (VList [VInt 3; VInt 3; VInt 12; VInt 11])) "match_pixel"
               (mkSt Toy.loaded [])
          = (Ok tt, snd (crop (GeomValue (VList [VInt 3; VInt 3; VInt 12; VInt 11]))
                              "match_pixel" (mkSt Toy.loaded [])))) as H.
  { apply run_Ok_eta. vm_compute. reflexivity. }
  split; [exact H |].
  exact (crop_keeps_metadata Toy.loaded [] _ "match_pixel" _ H).
Defined.

Example load_by_hand :
  load None (mkSt Toy.unloaded []) = (Ok tt, mkSt Toy.loaded_by_hand [EvRead]).
Proof. reflexivity. Qed.

(** After cropping that handle to 3 by 3 pixels the buffer is still the
    30 by 40 one. *)
Example crop_loaded_by_hand :
  let '(r, s) :=
    crop (GeomValue (VList [VInt 3; VInt 3; VInt 12; VInt 11])) "match_pixel"
         (mkSt Toy.loaded_by_hand []) in
  r = Ok tt
  /\ mirrored (obj s) !! "shape" = Some (VTuple [VInt 3; VInt 3])
  /\ (arr_shape <$> data (obj s)) = Some [1; 30; 40].
Proof. vm_compute. repeat split. Qed.

Lemma crop_refreshes_default_attrs_witness :
  crop Toy.extent "match_extent" (mkSt Toy.loaded [])
  = (Ok tt, snd (crop Toy.extent "match_extent" (mkSt Toy.loaded [])))
  /\ _saved_attrs (obj (snd (crop Toy.extent "match_extent" (mkSt Toy.loaded []))))
     = default_attrs.
Proof.
  assert (crop Toy.extent "match_extent" (mkSt Toy.loaded [])
          = (Ok tt, snd (crop Toy.extent "match_extent" (mkSt Toy.loaded [])))) as H.
  { apply run_Ok_eta. vm_compute. reflexivity. }
  split; [exact H |].
  exact (proj1 (crop_refreshes_default_attrs Toy.loaded [] Toy.extent "match_extent" _ H)).
Defined.

Lemma crop_not_loaded_keeps_buffer_witness :
  (isLoaded Toy.loaded_by_hand = false
   /\ crop (GeomValue (VList [VInt 3; VInt 3; VInt 12; VInt 11])) "match_pixel"
           (mkSt Toy.loaded_by_hand [])
      = (Ok tt, snd (crop (GeomValue (VList [VInt 3; VInt 3; VInt 12; VInt 11]))
                          "match_pixel" (mkSt Toy.loaded_by_hand []))))
  /\ data (obj (snd (crop (GeomValue (VList [VInt 3; VInt 3; VInt 12; VInt 11]))
                          "match_pixel" (mkSt Toy.loaded_by_hand []))))
     = data Toy.loaded_by_hand
  /\ nbands (obj (snd (crop (GeomValue (VList [VInt 3; VInt 3; VInt 12; VInt 11]))
                            "match_pixel" (mkSt Toy.loaded_by_hand []))))
     = nbands Toy.loaded_by_hand.
Proof.
  assert (crop (GeomValue (VList [VInt 3; VInt 3; VInt 12; VInt 11])) "match_pixel"
               (mkSt Toy.loaded_by_hand [])
          = (Ok tt, snd (crop (GeomValue (VList [VInt 3; VInt 3; VInt 12; VInt 11]))
                              "match_pixel" (mkSt Toy.loaded_by_hand [])))) as H.
  { apply run_Ok_eta. vm_compute. reflexivity. }
  split; [split; [reflexivity | exact H] |].
  exact (crop_not_loaded_keeps_buffer Toy.loaded_by_hand [] _ "match_pixel" _ eq_refl H).
Defined.

Lemma landsat_has_default_attrs : has_attrs Toy.landsat default_attrs.
Proof. unfold has_attrs. repeat (constructor; [eexists; reflexivity |]). constructor. Qed.

Lemma Raster_init_returns_witness :
  (fs_open "landsat_B4_crop.tif" = Ok Toy.landsat
   /\ MemoryFile_of_file Toy.landsat = Ok (Some Toy.landsat)
   /\ memfile_open (Some Toy.landsat) = Ok Toy.landsat
   /\ has_attrs Toy.landsat ["transform"; "name"]
   /\ has_attrs Toy.landsat default_attrs)
  /\ exists h tr',
       Raster_init "landsat_B4_crop.tif" (AttrsList ["transform"; "name"]) true None
                   (mkSt tt [])
       = (Ok h, mkSt tt tr')
       /\ ds h = Toy.landsat /\ isLoaded h = true
       /\ filename h = Some (abspath "landsat_B4_crop.tif").
Proof.
  assert (has_attrs Toy.landsat ["transform"; "name"]) as Ha.
  { unfold has_attrs. repeat (constructor; [eexists; reflexivity |]). constructor. }
  split; [repeat split; first [exact Ha | exact landsat_has_default_attrs] |].
  exact (Raster_init_returns "landsat_B4_crop.tif" ["transform"; "name"] true None []
           Toy.landsat (Some Toy.landsat) Toy.landsat eq_refl eq_refl eq_refl Ha
           landsat_has_default_attrs (fun _ => eq_refl)).
Defined.

End Concrete.

(** * Further properties *)

Section Calls.
Context {rio : Rasterio}.

(** [load] assigns [data] and [nbands] and nothing else, [isLoaded]
    included; when the read fails it assigns nothing. *)
Theorem load_frame (h : Raster) (tr : list Event) (bands : option (PyVal Foreign)) :
  same_but_buffer (obj (snd (load bands (mkSt h tr)))) h
  /\ trace (snd (load bands (mkSt h tr))) = tr ++ [EvRead]
  /\ (is_ok (fst (load bands (mkSt h tr))) = false ->
      obj (snd (load bands (mkSt h tr))) = h).
Proof.
  rewrite load_eq. destruct (ds_read (ds h) bands) as [a | e]; simpl.
  - split; [by repeat split |]. split; [done | discriminate].
  - split; [by repeat split |]. by split.
Qed.

Lemma bind_raise {S A B} (e : exn) (k : A -> M S B) s :
  bind (raise e) k s = (Err e, s).
Proof. reflexivity. Qed.

(** [crop] reads its [cropGeom] argument only through the extent it
    unpacks from it. *)
Lemma crop_geom_Err cropGeom mode (s : St Raster) e :
  valid_mode mode = true ->
  geom_bounds cropGeom = Err e ->
  crop cropGeom mode s = (Err e, s).
Proof.
  intros Hm Hg. unfold crop. fold (valid_mode mode). rewrite Hm.
  unfold assert_. rewrite (bind_Ok _ _ _ tt s) by reflexivity.
  destruct cropGeom as [r | v | v]; cbn [geom_bounds] in Hg.
  - by rewrite bind_lift, Hg.
  - injection Hg as <-. reflexivity.
  - destruct v; cbn [is_coordinates] in Hg;
      first [ by rewrite bind_lift, Hg | injection Hg as <-; reflexivity ].
Qed.

Lemma crop_geom_Ok cropGeom mode (s : St Raster) xmin ymin xmax ymax :
  geom_bounds cropGeom = Ok (xmin, ymin, xmax, ymax) ->
  crop cropGeom mode s = crop (GeomValue (VTuple [xmin; ymin; xmax; ymax])) mode s.
Proof.
  intros Hg. destruct (valid_mode mode) eqn:Hm;
    [| by rewrite !crop_rejected_mode].
  unfold crop. fold (valid_mode mode). rewrite Hm.
  unfold assert_. rewrite !(bind_Ok _ _ _ tt s) by reflexivity.
  rewrite (bind_lift (unpack4 (VTuple [xmin; ymin; xmax; ymax]))).
  cbn [unpack4 py_iter rbind].
  destruct cropGeom as [r | v | v]; cbn [geom_bounds] in Hg.
  - by rewrite bind_lift, Hg.
  - discriminate.
  - destruct v; cbn [is_coordinates] in Hg;
      first [ by rewrite bind_lift, Hg | discriminate ].
Qed.

(** Two [cropGeom] arguments with the same extent give the same crop: a
    [Raster] is cropped to as its [bounds] tuple would be, and a list as the
    tuple of its items. *)
Theorem crop_same_extent (h : Raster) (tr : list Event) (g1 g2 : CropGeom) (mode : string) :
  geom_bounds g1 = geom_bounds g2 ->
  crop g1 mode (mkSt h tr) = crop g2 mode (mkSt h tr).
Proof.
  intros Hg. destruct (valid_mode mode) eqn:Hm;
    [| by rewrite !crop_rejected_mode].
  destruct (geom_bounds g1) as [[[[xmin ymin] xmax] ymax] | e] eqn:H1.
  - rewrite (crop_geom_Ok g1 _ _ _ _ _ _ H1). symmetry. by apply crop_geom_Ok.
  - rewrite (crop_geom_Err g1 _ _ _ Hm H1). symmetry. by apply crop_geom_Err.
Qed.

(** A coordinate list or tuple that does not hold exactly four items makes
    [crop] raise [ValueError] before anything is touched. *)
Theorem crop_wrong_arity (h : Raster) (tr : list Event) (l : list (PyVal Foreign))
    (mode : string) :
  valid_mode mode = true ->
  length l <> 4%nat ->
  exists e,
    crop (GeomValue (VList l)) mode (mkSt h tr) = (Err e, mkSt h tr)
    /\ crop (GeomValue (VTuple l)) mode (mkSt h tr) = (Err e, mkSt h tr)
    /\ exn_class_of e = ValueError.
Proof.
  intros Hm Hl.
  assert (forall v, py_iter v = Ok l -> unpack4 v
          = Err (Raise ValueError "wrong number of values to unpack")) as Hu.
  { intros v Hv. unfold unpack4. rewrite Hv. cbn [rbind].
    destruct l as [| a [| b [| c [| d [| e l]]]]]; try reflexivity. by destruct Hl. }
  exists (Raise ValueError "wrong number of values to unpack").
  split; [| split; [| reflexivity]];
    apply crop_geom_Err; try done; cbn [geom_bounds is_coordinates]; by apply Hu.
Qed.

(** A successful [crop] makes one masking or resampling call, then the four
    calls of [_update], then one read if the handle is loaded: it never opens
    the file on disk again. *)
Theorem crop_log (h : Raster) (tr : list Event) (cropGeom : CropGeom) (mode : string)
    (s' : St Raster) :
  crop cropGeom mode (mkSt h tr) = (Ok tt, s') ->
  trace s'
  = tr ++ [if bool_decide (mode = "match_pixel") then EvMask else EvReproject]
       ++ [EvMemoryFile; EvCreate; EvWrite; EvOpen]
       ++ (if isLoaded h then [EvRead] else []).
Proof.
  intros H.
  apply crop_inv in H
    as (xmin & ymin & xmax & ymax & crop_img & hh & ww & tfm & ev & Hb & Hc & H).
  apply _update_inv in H as (mf0 & w & mf & d & Hmf0 & Hw & Hmf & Hd & Hattrs & H).
  assert (ev = if bool_decide (mode = "match_pixel") then EvMask else EvReproject) as ->.
  { by destruct Hc. }
  destruct (isLoaded h).
  - destruct H as (a & _ & ->). cbn [trace]. unfold update_events.
    by rewrite <- !app_assoc.
  - subst s'. cbn [trace]. unfold update_events. by rewrite <- !app_assoc, app_nil_r.
Qed.
End Calls.

Section Keeps.
Context {rio : Rasterio}.
Context (R : relation Raster) {Hrefl : Reflexive R} {Htrans : Transitive R}.

Lemma keeps_ret {A} (a : A) : keeps R (ret a).
Proof. intros s r s' [= <- <-]. reflexivity. Qed.

Lemma keeps_raise {A} e : keeps R (raise (A := A) e).
Proof. intros s r s' [= <- <-]. reflexivity. Qed.

Lemma keeps_lift {A} (x : result A) : keeps R (lift x).
Proof. intros s r s' [= <- <-]. reflexivity. Qed.

Lemma keeps_io {A} ev (x : result A) : keeps R (io ev x).
Proof. intros s r s' [= <- <-]. reflexivity. Qed.

Lemma keeps_get_self : keeps R get_self.
Proof. intros s r s' [= <- <-]. reflexivity. Qed.

Lemma keeps_modify (f : Raster -> Raster) : (forall r, R r (f r)) -> keeps R (modify f).
Proof. intros Hf s r s' [= <- <-]. apply Hf. Qed.

Lemma keeps_bind {A B} (m : M Raster A) (k : A -> M Raster B) :
  keeps R m -> (forall a, keeps R (k a)) -> keeps R (bind m k).
Proof.
  intros Hm Hk s r s'. unfold bind.
  destruct (m s) as [[a | e] s1] eqn:H1.
  - intros H2. transitivity (obj s1); [by eapply Hm | by eapply Hk].
  - intros [= <- <-]. by eapply Hm.
Qed.

End Keeps.

Ltac keeps_steps :=
  repeat first
    [ apply keeps_ret | apply keeps_raise | apply keeps_lift | apply keeps_io
    | apply keeps_get_self
    | apply keeps_bind; [typeclasses eauto .. | | intros ?]
    | match goal with
      | |- keeps _ (if ?b then _ else _) => destruct b
      | |- keeps _ (match ?x with _ => _ end) => destruct x
      end ].

Section Failure.
Context {rio : Rasterio}.

#[local] Instance same_core_refl : Reflexive same_core.
Proof. by intros h. Qed.

#[local] Instance same_core_trans : Transitive same_core.
Proof.
  intros h1 h2 h3 (H1 & H2 & H3) (H4 & H5 & H6). unfold same_core. by rewrite H4, H5, H6.
Qed.

Lemma keeps_mirror_attrs l : keeps same_core (mirror_attrs l).
Proof.
  induction l as [| a l IH]; cbn [mirror_attrs]; [apply keeps_ret; typeclasses eauto |].
  apply keeps_bind; [typeclasses eauto | apply keeps_get_self; typeclasses eauto |].
  intros self. apply keeps_bind; [typeclasses eauto | apply keeps_lift; typeclasses eauto |].
  intros v. apply keeps_bind; [typeclasses eauto | | by intros _].
  by apply keeps_modify.
Qed.

Lemma keeps_load bands : keeps same_core (load bands).
Proof.
  intros [h tr] r s'. rewrite load_eq.
  destruct (ds_read (ds h) bands); intros [= <- <-]; done.
Qed.

Lemma bind_Err_inv {S A B} (m : M S A) (k : A -> M S B) s e s'' :
  bind m k s = (Err e, s'') ->
  m s = (Err e, s'') \/ exists a s', m s = (Ok a, s') /\ k a s' = (Err e, s'').
Proof.
  unfold bind. destruct (m s) as [[a | e'] s']; [by eauto |]. intros [= <- <-]. by left.
Qed.

Lemma _update_Err_frame imgdata metadata (h : Raster) tr e s' :
  _update imgdata metadata (mkSt h tr) = (Err e, s') ->
  failed_crop_frame h (obj s').
Proof.
  unfold _update. intros H.
  apply bind_Err_inv in H as [[= _ <-] | (mf0 & s0 & [Hmf0 ->]%io_inv & H)]; [by left |].
  apply bind_Err_inv in H as [[= _ <-] | (w & s1 & [Hw ->]%io_inv & H)]; [by left |].
  apply bind_Err_inv in H as [[= _ <-] | (mf & s2 & [Hmf ->]%io_inv & H)]; [by left |].
  apply bind_Err_inv in H as [[=] | ([] & s3 & [= <-] & H)].
  cbn [obj trace] in H.
  assert (same_core (set_memfile mf h) (obj s')) as (Hf & Hm & Hl).
  { revert H. match goal with |- ?m ?s = _ -> _ =>
      assert (keeps same_core m) as Hk; [| intros H; exact (Hk _ _ _ H)] end.
    apply keeps_bind; [typeclasses eauto | apply keeps_io; typeclasses eauto |].
    intros d. apply keeps_bind; [typeclasses eauto | by apply keeps_modify |].
    intros _. apply keeps_bind; [typeclasses eauto | |].
    - unfold _read_attrs. apply keeps_bind; [typeclasses eauto | |].
      + apply keeps_bind; [typeclasses eauto | by apply keeps_modify |].
        intros _. apply keeps_ret. typeclasses eauto.
      + apply keeps_mirror_attrs.
    - intros _. apply keeps_bind; [typeclasses eauto | apply keeps_get_self; typeclasses eauto |].
      intros self. destruct (isLoaded self); [apply keeps_load | apply keeps_ret; typeclasses eauto]. }
  right. exists imgdata, metadata, mf0, w. cbn in Hf, Hm, Hl. by rewrite Hm.
Qed.

End Failure.

Section CropOutcomes.
Context {rio : Rasterio}.

#[local] Instance rev_eq_refl : Reflexive (fun h h' : Raster => h' = h).
Proof. by intros h. Qed.
#[local] Instance rev_eq_trans : Transitive (fun h h' : Raster => h' = h).
Proof. intros h1 h2 h3 -> ->. reflexivity. Qed.

Lemma bind_keeps_frame {A B} (m : M Raster A) (k : A -> M Raster B) (h : Raster) tr e s' :
  keeps (fun h h' => h' = h) m ->
  (forall a tr1, k a (mkSt h tr1) = (Err e, s') -> failed_crop_frame h (obj s')) ->
  bind m k (mkSt h tr) = (Err e, s') ->
  failed_crop_frame h (obj s').
Proof.
  intros Hm Hk H.
  apply bind_Err_inv in H as [H | (a & [h1 tr1] & H1 & H)].
  - left. exact (Hm _ _ _ H).
  - pose proof (Hm _ _ _ H1) as Heq. cbn in Heq. subst h1. by eapply Hk.
Qed.

(** A [crop] that raises has either left the handle as it was, or raised
    after the new dataset had been written to a memory file that the handle
    now holds; [isLoaded] and [filename] are never changed. *)
Theorem crop_failure_frame (h : Raster) (tr : list Event) (cropGeom : CropGeom)
    (mode : string) (e : exn) (s' : St Raster) :
  crop cropGeom mode (mkSt h tr) = (Err e, s') ->
  failed_crop_frame h (obj s').
Proof.
  unfold crop. intros H.
  eapply bind_keeps_frame in H; [exact H | |].
  { unfold assert_. destruct (bool_decide _); [apply keeps_ret | apply keeps_raise];
      typeclasses eauto. }
  clear H. intros [] tr1 H.
  eapply bind_keeps_frame in H; [exact H | |].
  { destruct cropGeom as [r | v | v]; [| | destruct v]; keeps_steps; typeclasses eauto. }
  clear H. intros [[[xmin ymin] xmax] ymax] tr2 H.
  eapply bind_keeps_frame in H; [exact H | apply keeps_get_self; typeclasses eauto |].
  clear H. intros self tr3 H.
  eapply bind_keeps_frame in H; [exact H | |].
  { destruct (bool_decide (mode = "match_pixel")).
    - apply keeps_bind; [typeclasses eauto | apply keeps_lift; typeclasses eauto |].
      intros bbox. apply keeps_bind; [typeclasses eauto | apply keeps_io; typeclasses eauto |].
      intros [img tfm]. apply keeps_bind; [typeclasses eauto | apply keeps_lift; typeclasses eauto |].
      intros hh. apply keeps_bind; [typeclasses eauto | apply keeps_lift; typeclasses eauto |].
      intros ww. apply keeps_ret. typeclasses eauto.
    - do 5 (apply keeps_bind; [typeclasses eauto | apply keeps_lift; typeclasses eauto | intros ?]).
      apply keeps_bind; [typeclasses eauto | |].
      { destruct (isLoaded self); [apply keeps_ret | apply keeps_lift]; typeclasses eauto. }
      intros n.
      do 4 (apply keeps_bind; [typeclasses eauto | apply keeps_lift; typeclasses eauto | intros ?]).
      apply keeps_bind; [typeclasses eauto | apply keeps_io; typeclasses eauto |].
      intros [img tfm]. apply keeps_ret. typeclasses eauto. }
  clear H. intros [img meta] tr4 H. by eapply _update_Err_frame.
Qed.

(** The converse of [crop_inv]: [crop] returns once the extent unpacks, the
    mode's image is computed, the new dataset is written and reopened with
    the default attributes, and (on a loaded handle) its bands are read. *)
Theorem crop_returns (h : Raster) (tr : list Event) (cropGeom : CropGeom) (mode : string)
    xmin ymin xmax ymax ev crop_img height width tfm mf0 w mf d :
  geom_bounds cropGeom = Ok (xmin, ymin, xmax, ymax) ->
  crop_image h xmin ymin xmax ymax mode ev crop_img height width tfm ->
  MemoryFile_new = Ok mf0 ->
  memfile_create mf0 (cropped_meta (ds_meta (ds h)) height width tfm) = Ok w ->
  writer_write w crop_img = Ok mf ->
  memfile_open mf = Ok d ->
  has_attrs d default_attrs ->
  (isLoaded h = true -> is_ok (ds_read d None) = true) ->
  exists s',
    crop cropGeom mode (mkSt h tr) = (Ok tt, s')
    /\ ds (obj s') = d /\ memfile (obj s') = mf.
Proof.
  intros Hg Hc Hmf0 Hw Hmf Hd Hattrs Hread.
  rewrite (crop_geom_Ok _ _ _ _ _ _ _ Hg).
  assert (exists s', _update crop_img (cropped_meta (ds_meta (ds h)) height width tfm)
                       (mkSt h (tr ++ [ev])) = (Ok tt, s')
                     /\ ds (obj s') = d /\ memfile (obj s') = mf) as (s' & Hu & Hds).
  { unfold _update.
    rewrite (bind_Ok _ _ _ mf0 (mkSt h ((tr ++ [ev]) ++ [EvMemoryFile])))
      by (unfold io; by rewrite Hmf0).
    rewrite (bind_Ok _ _ _ w (mkSt h (((tr ++ [ev]) ++ [EvMemoryFile]) ++ [EvCreate])))
      by (unfold io; by rewrite Hw).
    rewrite (bind_Ok _ _ _ mf
               (mkSt h ((((tr ++ [ev]) ++ [EvMemoryFile]) ++ [EvCreate]) ++ [EvWrite])))
      by (unfold io; by rewrite Hmf).
    unfold bind at 1, modify at 1. cbn [obj trace].
    rewrite (bind_Ok _ _ _ d
               (mkSt (set_memfile mf h)
                  (((((tr ++ [ev]) ++ [EvMemoryFile]) ++ [EvCreate]) ++ [EvWrite]) ++ [EvOpen])))
      by (unfold io; by rewrite Hd).
    unfold bind at 1, modify at 1. cbn [obj trace].
    unfold _read_attrs. unfold bind at 1. unfold bind at 1. unfold bind at 1, modify at 1, ret at 1.
    cbn [obj trace]. rewrite mirror_attrs_ok by exact Hattrs.
    unfold bind at 1, get_self at 1. cbn [obj].
    simpl. destruct (isLoaded h).
    - rewrite load_eq. simpl.
      destruct (ds_read d None) as [a | e]; [| by specialize (Hread eq_refl)].
      eexists. split; [reflexivity |]. by split.
    - eexists. split; [reflexivity |]. by split. }
  exists s'. split; [| exact Hds]. revert Hu. generalize s'. clear Hds s'. intros s' Hu.
  unfold crop. destruct Hc as [bbox img t hh ww Hp Hk Hh Hww
                              | t win nh nw nt n src nimg crs img t' Ht Hwin Hnh Hnw Hnt Hn Hsrc Hz Hcrs Hr].
  - rewrite bool_decide_eq_true_2 by (apply elem_of_cons; right; apply elem_of_cons; by left).
    rewrite bool_decide_eq_true_2 by done.
    unfold assert_. rewrite (bind_Ok _ _ _ tt (mkSt h tr)) by reflexivity.
    rewrite bind_lift. cbn [unpack4 py_iter rbind].
    rewrite (bind_Ok _ _ _ h (mkSt h tr)) by reflexivity.
    rewrite (bind_Ok _ _ _ (img, cropped_meta (ds_meta (ds h)) hh ww t)
               (mkSt h (tr ++ [EvMask]))); [exact Hu |].
    rewrite bind_lift, Hp.
    rewrite (bind_Ok _ _ _ (img, t) (mkSt h (tr ++ [EvMask]))) by (unfold io; by rewrite Hk).
    rewrite bind_lift, Hh, bind_lift, Hww. reflexivity.
  - rewrite bool_decide_eq_true_2 by (apply elem_of_cons; by left).
    rewrite bool_decide_eq_false_2 by discriminate.
    unfold assert_. rewrite (bind_Ok _ _ _ tt (mkSt h tr)) by reflexivity.
    rewrite bind_lift. cbn [unpack4 py_iter rbind].
    rewrite (bind_Ok _ _ _ h (mkSt h tr)) by reflexivity.
    rewrite (bind_Ok _ _ _ (img, cropped_meta (ds_meta (ds h)) nh nw t')
               (mkSt h (tr ++ [EvReproject]))); [exact Hu |].
    rewrite bind_lift, Ht, bind_lift, Hwin, bind_lift, Hnh, bind_lift, Hnw, bind_lift, Hnt.
    assert ((if isLoaded h then ret (opt_int (nbands h)) else lift (getattr h "count"))
              (mkSt h tr) = (Ok n, mkSt h tr)) as Hn'.
    { destruct (isLoaded h); [by injection Hn as <- | unfold lift; by rewrite Hn]. }
    rewrite (bind_Ok _ _ _ n (mkSt h tr)) by exact Hn'.
    rewrite bind_lift, Hsrc, bind_lift, Hz, !bind_lift, Hcrs.
    rewrite (bind_Ok _ _ _ (img, t') (mkSt h (tr ++ [EvReproject])))
      by (unfold io; by rewrite Hr).
    reflexivity.
Qed.

End CropOutcomes.

Section Constructor.
Context {rio : Rasterio}.






Lemma _read_attrs_AttrsStr (s : string) :
  _read_attrs (AttrsStr s)
  = (let* attrs := (run modify (set_saved_attrs (append_defaults [s])) in
                    ret (append_defaults [s])) in
     mirror_attrs attrs).
Proof. reflexivity. Qed.

Lemma mirror_attrs_any l (r : Raster) tr :
  exists m' res, mirror_attrs l (mkSt r tr) = (res, mkSt (set_mirrored m' r) tr).
Proof.
  revert r. induction l as [| a l IH]; intros r; cbn [mirror_attrs].
  - exists (mirrored r), (Ok tt). by destruct r.
  - rewrite (bind_Ok _ _ _ r (mkSt r tr)) by reflexivity. rewrite bind_lift.
    destruct (ds_getattr (ds r) a) as [v |].
    + rewrite (bind_Ok _ _ _ tt (mkSt (setattr a v r) tr)) by reflexivity.
      destruct (IH (setattr a v r)) as (m' & res & ->). by exists m', res.
    + exists (mirrored r). eexists. by destruct r.
Qed.

(** Whatever its outcome, [_read_attrs] assigns only [_saved_attrs] and the
    mirrored attributes, and makes no I/O call. *)
Lemma _read_attrs_any attrs (r : Raster) tr :
  exists l' m' res,
    _read_attrs attrs (mkSt r tr)
    = (res, mkSt (set_mirrored m' (set_saved_attrs l' r)) tr).
Proof.
  assert (forall l0, exists l' m' res,
            (let* attrs := (run modify (set_saved_attrs l0) in ret l0) in
             mirror_attrs attrs) (mkSt r tr)
            = (res, mkSt (set_mirrored m' (set_saved_attrs l' r)) tr)) as Hlist.
  { intros l0.
    rewrite (bind_Ok _ _ _ l0 (mkSt (set_saved_attrs l0 r) tr)) by reflexivity.
    destruct (mirror_attrs_any l0 (set_saved_attrs l0 r) tr) as (m' & res & ->).
    by exists l0, m', res. }
  destruct attrs as [| s | l | l].
  - apply (Hlist default_attrs).
  - rewrite _read_attrs_AttrsStr. apply Hlist.
  - rewrite _read_attrs_AttrsList. apply Hlist.
  - unfold _read_attrs. destruct (decide _) as [Hall | Hmiss].
    + apply (Hlist l).
    + exists (_saved_attrs r), (mirrored r). eexists. unfold bind, raise. by destruct r.
Qed.

Lemma Raster_init_inv_log fname attrs load_data bands tr (h : Raster) (s' : St unit) :
  Raster_init fname attrs load_data bands (mkSt tt tr) = (Ok h, s') ->
  exists f mf d tr',
    fs_open fname = Ok f /\ MemoryFile_of_file f = Ok mf /\ memfile_open mf = Ok d
    /\ s' = mkSt tt tr'
    /\ (run _read_attrs attrs in
        if load_data then
          run load bands in
          modify (set_isLoaded true)
        else
          run modify (set_data None) in
          run modify (set_nbands None) in
          modify (set_isLoaded false))
         (mkSt (mkRaster (Some (abspath fname)) mf d None None false [] ∅)
               (tr ++ [EvOpenFile fname; EvMemoryFile; EvOpen]))
       = (Ok tt, mkSt h tr').
Proof.
  unfold Raster_init. intros H.
  apply bind_inv in H as (f & ? & [Hf ->]%io_inv & H).
  apply bind_inv in H as (mf & ? & [Hmf ->]%io_inv & H).
  apply bind_inv in H as (d & ? & [Hd ->]%io_inv & H).
  apply bind_inv in H as ([[] self] & s1 & H1 & [= <- <-]).
  unfold on_object in H1. cbn [obj trace] in H1.
  rewrite <- !app_assoc in H1. cbn [app] in H1.
  match type of H1 with
  | context [?m (mkSt ?r0 ?tr0)] =>
      destruct (m (mkSt r0 tr0)) as [[[] | e] [h' tr']] eqn:Hbody; [| discriminate]
  end.
  injection H1 as <- <-. exists f, mf, d, tr'. repeat (split; [assumption || reflexivity |]).
  exact Hbody.
Qed.

(** A handle the constructor returns holds the absolute path, has
    [isLoaded] equal to [load_data], and either no buffer and no band count,
    or the array read from its dataset with the band count of that array;
    the constructor opens the file once and reads only when asked to. *)
Theorem init_state (fname : string) (attrs : AttrsArg) (load_data : bool)
    (bands : option (PyVal Foreign)) (tr : list Event) (h : Raster) (s' : St unit) :
  Raster_init fname attrs load_data bands (mkSt tt tr) = (Ok h, s') ->
  filename h = Some (abspath fname)
  /\ isLoaded h = load_data
  /\ (if load_data
      then exists a, ds_read (ds h) bands = Ok a /\ data h = Some a /\ nbands h = nbands_of a
      else data h = None /\ nbands h = None)
  /\ trace s' = tr ++ [EvOpenFile fname; EvMemoryFile; EvOpen]
                   ++ (if load_data then [EvRead] else []).
Proof.
  intros H.
  apply Raster_init_inv_log in H as (f & mf & d & tr' & Hf & Hmf & Hd & -> & H).
  apply bind_inv in H as ([] & s1 & H1 & H).
  destruct (_read_attrs_any attrs
              (mkRaster (Some (abspath fname)) mf d None None false [] ∅)
              (tr ++ [EvOpenFile fname; EvMemoryFile; EvOpen])) as (l' & m' & res & Hr).
  rewrite Hr in H1. injection H1 as -> <-.
  destruct load_data.
  - apply bind_inv in H as ([] & s2 & H2 & [= <- <-]).
    rewrite load_eq in H2. simpl in H2.
    destruct (ds_read d bands) as [a |] eqn:Ha; [| discriminate]. injection H2 as <-.
    simpl. split; [done |]. split; [done |]. split; [by eauto |]. by rewrite <- app_assoc.
  - apply bind_inv in H as ([] & s2 & [= <-] & H).
    apply bind_inv in H as ([] & s3 & [= <-] & [= <- <-]).
    simpl. by repeat split.
Qed.

Lemma mirror_attrs_missing l (r : Raster) tr a0 :
  a0 ∈ l -> ds_getattr (ds r) a0 = None ->
  exists a m',
    a ∈ l /\ ds_getattr (ds r) a = None
    /\ mirror_attrs l (mkSt r tr) = (Err (Raise AttributeError a), mkSt (set_mirrored m' r) tr).
Proof.
  revert r. induction l as [| b l IH]; intros r Hin Hnone; [by apply elem_of_nil in Hin |].
  cbn [mirror_attrs]. rewrite (bind_Ok _ _ _ r (mkSt r tr)) by reflexivity. rewrite bind_lift.
  destruct (ds_getattr (ds r) b) as [v |] eqn:Hb.
  - apply elem_of_cons in Hin as [-> | Hin]; [congruence |].
    rewrite (bind_Ok _ _ _ tt (mkSt (setattr b v r) tr)) by reflexivity.
    destruct (IH (setattr b v r) Hin Hnone) as (a & m' & Ha & Hna & ->).
    exists a, m'. split; [by right |]. by split.
  - exists b, (mirrored r). split; [by left |]. split; [exact Hb |]. by destruct r.
Qed.

(** The constructor raises [AttributeError] when the caller's list names
    something the dataset does not have; the handle is not created. *)
Theorem init_missing_attribute (fname : string) (attrs : list string) (load_data : bool)
    (bands : option (PyVal Foreign)) (tr : list Event) f mf d a0 :
  fs_open fname = Ok f ->
  MemoryFile_of_file f = Ok mf ->
  memfile_open mf = Ok d ->
  a0 ∈ attrs ->
  ds_getattr d a0 = None ->
  exists a,
    (a ∈ attrs \/ a ∈ default_attrs)
    /\ ds_getattr d a = None
    /\ Raster_init fname (AttrsList attrs) load_data bands (mkSt tt tr)
       = (Err (Raise AttributeError a),
          mkSt tt (tr ++ [EvOpenFile fname; EvMemoryFile; EvOpen])).
Proof.
  intros Hf Hmf Hd Hin Hnone.
  assert (a0 ∈ append_defaults attrs) as Hin' by (apply append_defaults_elem; by left).
  pose proof (append_defaults_elem attrs) as Helem.
  unfold Raster_init.
  rewrite (bind_Ok _ _ _ f (mkSt tt (tr ++ [EvOpenFile fname])))
    by (unfold io; by rewrite Hf).
  rewrite (bind_Ok _ _ _ mf (mkSt tt ((tr ++ [EvOpenFile fname]) ++ [EvMemoryFile])))
    by (unfold io; by rewrite Hmf).
  rewrite (bind_Ok _ _ _ d
             (mkSt tt (((tr ++ [EvOpenFile fname]) ++ [EvMemoryFile]) ++ [EvOpen])))
    by (unfold io; by rewrite Hd).
  rewrite _read_attrs_AttrsList. revert Hin' Helem. generalize (append_defaults attrs) as l0.
  intros l0 Hin' Helem. unfold bind at 1, on_object. cbn [obj trace].
  unfold bind at 1. unfold bind at 1. unfold bind at 1, modify at 1, ret at 1.
  cbn [obj trace].
  match goal with |- context [mirror_attrs l0 (mkSt ?r0 ?tr0)] =>
    destruct (mirror_attrs_missing l0 r0 tr0 a0 Hin' Hnone) as (a & m' & Ha & Hna & ->)
  end.
  exists a. split; [by apply Helem |]. split; [exact Hna |].
  cbn [obj trace]. by rewrite <- !app_assoc.
Qed.

(** A tuple passed as [attrs] cannot be extended: unless it already holds
    every default attribute, the constructor raises [AttributeError]. *)
Theorem init_tuple_attrs_raises (fname : string) (attrs : list string) (load_data : bool)
    (bands : option (PyVal Foreign)) (tr : list Event) f mf d a0 :
  fs_open fname = Ok f ->
  MemoryFile_of_file f = Ok mf ->
  memfile_open mf = Ok d ->
  a0 ∈ default_attrs ->
  a0 ∉ attrs ->
  exists e,
    Raster_init fname (AttrsTuple attrs) load_data bands (mkSt tt tr)
    = (Err e, mkSt tt (tr ++ [EvOpenFile fname; EvMemoryFile; EvOpen]))
    /\ exn_class_of e = AttributeError.
Proof.
  intros Hf Hmf Hd Hin Hnot.
  unfold Raster_init.
  rewrite (bind_Ok _ _ _ f (mkSt tt (tr ++ [EvOpenFile fname])))
    by (unfold io; by rewrite Hf).
  rewrite (bind_Ok _ _ _ mf (mkSt tt ((tr ++ [EvOpenFile fname]) ++ [EvMemoryFile])))
    by (unfold io; by rewrite Hmf).
  rewrite (bind_Ok _ _ _ d
             (mkSt tt (((tr ++ [EvOpenFile fname]) ++ [EvMemoryFile]) ++ [EvOpen])))
    by (unfold io; by rewrite Hd).
  unfold _read_attrs. destruct (decide _) as [Hall | Hmiss].
  - destruct Hnot. exact (proj1 (Forall_forall _ _) Hall a0 Hin).
  - exists (Raise AttributeError "append"). split; [| reflexivity].
    unfold bind, on_object, raise. cbn [obj trace]. by rewrite <- !app_assoc.
Qed.

End Constructor.

Lemma py_int_truncation (q : Q) (z : Z) :
  py_int (Finite q) = Ok z -> truncation z q.
Proof.
  intros [= <-]. destruct q as [n d]. unfold truncation, Qle, Qlt. cbn.
  pose proof (Z.quot_rem' n (Z.pos d)) as Hqr.
  split; intros Hn.
  - pose proof (Z.rem_bound_pos n (Z.pos d)) as Hr. nia.
  - pose proof (Z.rem_bound_pos (- n) (Z.pos d)) as Hr.
    rewrite Z.rem_opp_l' in Hr. nia.
Qed.

Section Extent.
Context {rio : Rasterio}.

Lemma cropped_meta_size (meta : gmap string (PyVal Foreign)) hh ww tfm :
  cropped_meta meta hh ww tfm !! "height" = Some (VInt hh)
  /\ cropped_meta meta hh ww tfm !! "width" = Some (VInt ww)
  /\ cropped_meta meta hh ww tfm !! "transform" = Some tfm.
Proof.
  unfold cropped_meta. split; [| split].
  - rewrite lookup_insert_ne by done. rewrite lookup_insert_ne by done.
    apply lookup_insert_eq.
  - rewrite lookup_insert_ne by done. apply lookup_insert_eq.
  - apply lookup_insert_eq.
Qed.

(** In ['match_extent'] mode the height and width of the new dataset are
    the pixel window's height and width rounded toward zero: a window that
    covers a fraction of a pixel more is cropped to the whole pixels. *)
Theorem crop_match_extent_truncates (h : Raster) (tr : list Event) (cropGeom : CropGeom)
    (s' : St Raster) :
  crop cropGeom "match_extent" (mkSt h tr) = (Ok tt, s') ->
  exists xmin ymin xmax ymax transform window qh qw new_height new_width metadata mf0 w,
    geom_bounds cropGeom = Ok (xmin, ymin, xmax, ymax)
    /\ getattr h "transform" = Ok transform
    /\ windows_from_bounds xmin ymin xmax ymax transform = Ok window
    /\ height window = Finite qh /\ truncation new_height qh
    /\ width window = Finite qw /\ truncation new_width qw
    /\ MemoryFile_new = Ok mf0
    /\ memfile_create mf0 metadata = Ok w
    /\ metadata !! "height" = Some (VInt new_height)
    /\ metadata !! "width" = Some (VInt new_width).
Proof.
  intros H.
  apply crop_inv in H
    as (xmin & ymin & xmax & ymax & crop_img & hh & ww & tfm & ev & Hb & Hc & H).
  apply _update_inv in H as (mf0 & w & mf & d & Hmf0 & Hw & Hmf & Hd & Hattrs & H).
  inversion Hc as [| t win nh nw nt n src nimg crs img t' Ht Hwin Hnh Hnw]; subst.
  destruct (height win) as [qh | |] eqn:Hqh; try discriminate.
  destruct (width win) as [qw | |] eqn:Hqw; try discriminate.
  exists xmin, ymin, xmax, ymax, t, win, qh, qw, hh, ww,
    (cropped_meta (ds_meta (ds h)) hh ww tfm), mf0, w.
  repeat (split; [first [assumption | reflexivity | by apply py_int_truncation] |]).
  split; apply cropped_meta_size.
Qed.

End Extent.

Lemma string_app_assoc (s1 s2 s3 : string) : (s1 +:+ s2) +:+ s3 = s1 +:+ (s2 +:+ s3).
Proof.
  induction s1 as [| c s1 IH]; [reflexivity |].
  change (String c ((s1 +:+ s2) +:+ s3) = String c (s1 +:+ s2 +:+ s3)). by rewrite IH.
Qed.

Lemma join_app (l1 l2 : list string) :
  foldr String.append EmptyString (l1 ++ l2)
  = foldr String.append EmptyString l1 +:+ foldr String.append EmptyString l2.
Proof.
  induction l1 as [| s l1 IH]; [reflexivity |].
  cbn [app foldr]. by rewrite IH, string_app_assoc.
Qed.

Section Info.
Context {rio : Rasterio}.

Lemma getattr_Err (r : Raster) a e :
  getattr r a = Err e -> exn_class_of e = AttributeError.
Proof. unfold getattr. destruct (mirrored r !! a); [discriminate | by intros [= <-]]. Qed.

(** [info] calls [self.crs.to_epsg()]: on a handle whose [crs] is [None]
    (or any value that is not a library object) it raises [AttributeError],
    with or without statistics. *)
Theorem info_without_crs_raises (h : Raster) (stats : bool) (crs : PyVal Foreign) :
  getattr h "crs" = Ok crs ->
  (forall x, crs <> VForeign x) ->
  exists e, info stats h = Err e /\ exn_class_of e = AttributeError.
Proof.
  intros Hcrs Hnot. unfold info. rewrite Hcrs.
  destruct (getattr h "driver") as [driver | e] eqn:H1;
    [| exists e; split; [reflexivity | by eapply getattr_Err]].
  destruct (getattr h "name") as [name | e] eqn:H2;
    [| exists e; split; [reflexivity | by eapply getattr_Err]].
  destruct (getattr h "width") as [width | e] eqn:H3;
    [| exists e; split; [reflexivity | by eapply getattr_Err]].
  destruct (getattr h "height") as [height | e] eqn:H4;
    [| exists e; split; [reflexivity | by eapply getattr_Err]].
  cbn [rbind]. destruct crs; try (eexists; split; reflexivity).
  by destruct (Hnot x).
Qed.

(** Statistics never change the summary: what [info] returns with
    statistics is what it returns without them, followed by the statistics
    lines (none when there is no pixel buffer). *)
Theorem info_stats_extend_summary (h : Raster) (s' : string) :
  info true h = Ok s' ->
  exists s t,
    info false h = Ok s /\ s' = s +:+ t
    /\ (data h = None -> t = EmptyString).
Proof.
  unfold info. intros H.
  repeat match type of H with
         | rbind ?r _ = Ok _ =>
             lazymatch r with context [data] => fail | _ => idtac end;
             let x := fresh "x" in
             destruct r as [x |]; [cbn [rbind] in H |- * | discriminate]
         end.
  cbn [rbind].
  match goal with
  | |- context [foldr String.append EmptyString ?l] =>
      remember l as summary eqn:Hsummary
  end.
  clear Hsummary. exists (foldr String.append EmptyString summary).
  destruct (data h) as [a |].
  - destruct (nbands h) as [n |]; [| discriminate].
    assert (exists ls, s' = foldr String.append EmptyString (summary ++ ls)) as (ls & ->).
    { destruct n as [| [p | p |] |];
        repeat first
          [ progress cbn [rbind] in H
          | match type of H with
            | context [rbind ?r _] =>
                lazymatch r with rbind _ _ => fail | _ => idtac end;
                let x := fresh "x" in
                destruct r as [x |]; [| cbn [rbind] in H; discriminate]
            end ];
        injection H as <-; eexists; reflexivity. }
    exists (foldr String.append EmptyString ls).
    split; [reflexivity |]. split; [apply join_app | discriminate].
  - cbn [rbind] in H. injection H as <-. exists EmptyString.
    split; [reflexivity |]. split; [| done].
    generalize (foldr String.append EmptyString summary).
    intros str. induction str as [| c str IH]; [reflexivity |].
    change (String c str = String c (str +:+ EmptyString)). by rewrite <- IH.
Qed.

(** [str(raster)] is computed from the path and the mirrored attributes
    alone: the pixel buffer, the band count, the dataset handle and the
    [isLoaded] flag play no part in it. *)
Theorem str_ignores_buffer (h1 h2 : Raster) :
  filename h1 = filename h2 -> mirrored h1 = mirrored h2 -> __str__ h1 = __str__ h2.
Proof.
  intros Hf Hm. unfold __str__, info, getattr. by rewrite Hf, Hm.
Qed.

End Info.

Section Invariant.
Context {rio : Rasterio}.

Lemma _read_attrs_inv attrs (r : Raster) tr s' :
  _read_attrs attrs (mkSt r tr) = (Ok tt, s') ->
  exists l,
    (forall a, a ∈ default_attrs -> a ∈ l)
    /\ has_attrs (ds r) l
    /\ s' = mkSt (set_mirrored (mirror_map (ds r) l (mirrored r)) (set_saved_attrs l r)) tr.
Proof.
  assert (forall l0, (forall a, a ∈ default_attrs -> a ∈ l0) ->
            (let* attrs := (run modify (set_saved_attrs l0) in ret l0) in
             mirror_attrs attrs) (mkSt r tr) = (Ok tt, s') ->
            exists l,
              (forall a, a ∈ default_attrs -> a ∈ l)
              /\ has_attrs (ds r) l
              /\ s' = mkSt (set_mirrored (mirror_map (ds r) l (mirrored r))
                                         (set_saved_attrs l r)) tr) as Hlist.
  { intros l0 Hin H.
    apply bind_inv in H as (l & s1 & H1 & H).
    apply bind_inv in H1 as ([] & s2 & [= <-] & [= <- <-]). cbn [obj trace] in H.
    apply mirror_attrs_inv in H as [Hattrs ->]. by exists l0. }
  pose proof (fun l a => proj2 (append_defaults_elem l a)) as Helem.
  destruct attrs as [| s | l | l].
  - apply Hlist. by intros a Ha.
  - rewrite _read_attrs_AttrsStr. specialize (Helem [s]). revert Helem.
    generalize (append_defaults [s]) as l0. intros l0 Helem. apply Hlist.
    intros a Ha. apply Helem. by right.
  - rewrite _read_attrs_AttrsList. specialize (Helem l). revert Helem.
    generalize (append_defaults l) as l0. intros l0 Helem. apply Hlist.
    intros a Ha. apply Helem. by right.
  - unfold _read_attrs. destruct (decide _) as [Hall | Hmiss]; [| discriminate].
    apply Hlist. intros a Ha. exact (proj1 (Forall_forall _ _) Hall a Ha).
Qed.

Lemma mirror_ok_mirror_map d l m (r : Raster) :
  (forall a, a ∈ default_attrs -> a ∈ l) -> has_attrs d l ->
  ds r = d -> mirrored r = mirror_map d l m -> mirror_ok r.
Proof.
  intros Hin Hattrs Hds Hm a Ha. specialize (Hin a Ha).
  destruct (proj1 (Forall_forall _ _) Hattrs a Hin) as [v Hv].
  exists v. rewrite Hds, Hm. split; [exact Hv |]. by rewrite (mirror_map_in _ _ _ _ Hattrs Hin).
Qed.

Lemma nbands_of_is_Some (a : NDArray) : is_Some (nbands_of a).
Proof.
  unfold nbands_of. destruct (decide _) as [Hlen | _]; [| by eexists].
  destruct (arr_shape a); [discriminate | by eexists].
Qed.

(** On every handle a program can obtain, the default attributes mirror the
    backing dataset, a handle marked as loaded holds a pixel buffer and a
    band count, and the absolute path of the file is set. *)
Theorem reachable_invariant (h : Raster) :
  reachable h -> mirror_ok h /\ buffer_ok h /\ is_Some (filename h).
Proof.
  induction 1 as [fname attrs load_data bands [[] tr] h s' Hinit
                 | h bands tr r s' Hreach IH Hload
                 | h cropGeom mode tr s' Hreach IH Hcrop].
  - apply Raster_init_inv_log in Hinit as (f & mf & d & tr' & _ & _ & _ & _ & H).
    apply bind_inv in H as ([] & s1 & H1 & H).
    apply _read_attrs_inv in H1 as (l & Hin & Hattrs & ->).
    destruct load_data.
    + apply bind_inv in H as ([] & s2 & H2 & [= <- _]).
      rewrite load_eq in H2. simpl in H2.
      destruct (ds_read d bands) as [a |]; [| discriminate]. injection H2 as <-.
      split; [by eapply mirror_ok_mirror_map |]. split; [| by eexists].
      intros _. split; [by eexists | apply nbands_of_is_Some].
    + apply bind_inv in H as ([] & s2 & [= <-] & H).
      apply bind_inv in H as ([] & s3 & [= <-] & [= <- _]).
      split; [by eapply mirror_ok_mirror_map |]. split; [| by eexists].
      intros Hl. discriminate Hl.
  - destruct IH as (Hm & Hb & Hf). rewrite load_eq in Hload.
    destruct (ds_read (ds h) bands) as [a | e]; injection Hload as <- <-; [| done].
    split; [exact Hm |]. split; [| exact Hf].
    intros _. split; [by eexists | apply nbands_of_is_Some].
  - destruct IH as (Hm & Hb & Hf).
    apply crop_inv in Hcrop
      as (xmin & ymin & xmax & ymax & crop_img & hh & ww & tfm & ev & _ & _ & H).
    apply _update_inv in H as (mf0 & w & mf & d & _ & _ & _ & _ & Hattrs & H).
    destruct (isLoaded h) eqn:Hl.
    + destruct H as (a & _ & ->). split; [| split; [| exact Hf]].
      * by eapply (mirror_ok_mirror_map d default_attrs (mirrored h)).
      * intros _. split; [by eexists | apply nbands_of_is_Some].
    + subst s'. split; [| split; [| exact Hf]].
      * by eapply (mirror_ok_mirror_map d default_attrs (mirrored h)).
      * intros Hloaded. cbn in Hloaded. congruence.
Qed.

End Invariant.

(** ** The further properties on concrete handles *)

Lemma run_Err_eta {S A} (x : result A * St S) (e : exn) :
  fst x = Err e -> x = (Err e, snd x).
Proof. destruct x as [r s]. cbn. by intros ->. Qed.

Lemma result_eta {A} (r : result A) (d : A) :
  is_ok r = true -> r = Ok (match r with Ok a => a | Err _ => d end).
Proof. destruct r; [reflexivity | discriminate]. Qed.

Section MoreConcrete.
#[local] Existing Instance Toy.lib.

(** Cropping to the loaded handle itself is cropping to its bounds. *)
Lemma crop_same_extent_witness :
  geom_bounds (GeomRaster Toy.loaded)
  = geom_bounds (GeomValue (VTuple [VInt 0; VInt 0; VInt 200; VInt 150]))
  /\ crop (GeomRaster Toy.loaded) "match_pixel" (mkSt Toy.loaded [])
     = crop (GeomValue (VTuple [VInt 0; VInt 0; VInt 200; VInt 150])) "match_pixel"
            (mkSt Toy.loaded []).
Proof.
  split; [reflexivity |].
  exact (crop_same_extent Toy.loaded [] (GeomRaster Toy.loaded)
           (GeomValue (VTuple [VInt 0; VInt 0; VInt 200; VInt 150])) "match_pixel" eq_refl).
Defined.

Lemma crop_wrong_arity_witness :
  (valid_mode "match_pixel" = true /\ length [VInt 0; VInt 0; VInt 10 : PyVal Foreign] <> 4%nat)
  /\ exists e,
       crop (GeomValue (VList [VInt 0; VInt 0; VInt 10])) "match_pixel" (mkSt Toy.loaded [])
       = (Err e, mkSt Toy.loaded [])
       /\ crop (GeomValue (VTuple [VInt 0; VInt 0; VInt 10])) "match_pixel" (mkSt Toy.loaded [])
          = (Err e, mkSt Toy.loaded [])
       /\ exn_class_of e = ValueError.
Proof.
  assert (length [VInt 0; VInt 0; VInt 10 : PyVal Foreign] <> 4%nat) as Hl by discriminate.
  split; [split; [reflexivity | exact Hl] |].
  exact (crop_wrong_arity Toy.loaded [] [VInt 0; VInt 0; VInt 10] "match_pixel" eq_refl Hl).
Defined.

Lemma crop_log_witness :
  crop Toy.extent "match_extent" (mkSt Toy.loaded [])
  = (Ok tt, snd (crop Toy.extent "match_extent" (mkSt Toy.loaded [])))
  /\ trace (snd (crop Toy.extent "match_extent" (mkSt Toy.loaded [])))
     = [] ++ [if bool_decide ("match_extent" = "match_pixel") then EvMask else EvReproject]
          ++ [EvMemoryFile; EvCreate; EvWrite; EvOpen]
          ++ (if isLoaded Toy.loaded then [EvRead] else []).
Proof.
  assert (crop Toy.extent "match_extent" (mkSt Toy.loaded [])
          = (Ok tt, snd (crop Toy.extent "match_extent" (mkSt Toy.loaded [])))) as H.
  { apply run_Ok_eta. vm_compute. reflexivity. }
  split; [exact H |].
  exact (crop_log Toy.loaded [] Toy.extent "match_extent" _ H).
Defined.

Lemma crop_failure_frame_witness :
  crop Toy.extent "match_extent" (mkSt Toy.unloaded [])
  = (Err (Raise AttributeError "'NoneType' object has no attribute 'dtype'"),
     snd (crop Toy.extent "match_extent" (mkSt Toy.unloaded [])))
  /\ failed_crop_frame Toy.unloaded
       (obj (snd (crop Toy.extent "match_extent" (mkSt Toy.unloaded [])))).
Proof.
  assert (crop Toy.extent "match_extent" (mkSt Toy.unloaded [])
          = (Err (Raise AttributeError "'NoneType' object has no attribute 'dtype'"),
             snd (crop Toy.extent "match_extent" (mkSt Toy.unloaded [])))) as H.
  { apply run_Err_eta. vm_compute. reflexivity. }
  split; [exact H |].
  exact (crop_failure_frame Toy.unloaded [] Toy.extent "match_extent" _ _ H).
Defined.

(** ['match_pixel'] needs no pixel buffer: the crop returns on the handle
    constructed without loading data. *)
Lemma crop_returns_witness :
  (geom_bounds (GeomValue (VList [VInt 3; VInt 3; VInt 12; VInt 11]))
   = Ok (VInt 3, VInt 3, VInt 12, VInt 11)
   /\ crop_image Toy.unloaded (VInt 3) (VInt 3) (VInt 12) (VInt 11) "match_pixel" EvMask
        (Toy.mkArray [1; 3; 3] "uint8" 7) 3 3 (VForeign (Toy.TAffine 5 0 (-5) 15))
   /\ has_attrs
        (Toy.mkDataset
           (cropped_meta (ds_meta (ds Toy.unloaded)) 3 3 (VForeign (Toy.TAffine 5 0 (-5) 15)))
           (Toy.mkArray [1; 3; 3] "uint8" 7))
        default_attrs)
  /\ exists s',
       crop (GeomValue (VList [VInt 3; VInt 3; VInt 12; VInt 11])) "match_pixel"
            (mkSt Toy.unloaded [])
       = (Ok tt, s')
       /\ ds (obj s')
          = Toy.mkDataset
              (cropped_meta (ds_meta (ds Toy.unloaded)) 3 3
                            (VForeign (Toy.TAffine 5 0 (-5) 15)))
              (Toy.mkArray [1; 3; 3] "uint8" 7)
       /\ memfile (obj s')
          = Some (Toy.mkDataset
                    (cropped_meta (ds_meta (ds Toy.unloaded)) 3 3
                                  (VForeign (Toy.TAffine 5 0 (-5) 15)))
                    (Toy.mkArray [1; 3; 3] "uint8" 7)).
Proof.
  assert (crop_image Toy.unloaded (VInt 3) (VInt 3) (VInt 12) (VInt 11) "match_pixel" EvMask
            (Toy.mkArray [1; 3; 3] "uint8" 7) 3 3 (VForeign (Toy.TAffine 5 0 (-5) 15)))
    as Himg.
  { eapply crop_match_pixel; reflexivity. }
  assert (has_attrs
            (Toy.mkDataset
               (cropped_meta (ds_meta (ds Toy.unloaded)) 3 3
                             (VForeign (Toy.TAffine 5 0 (-5) 15)))
               (Toy.mkArray [1; 3; 3] "uint8" 7))
            default_attrs) as Hattrs.
  { unfold has_attrs. repeat (constructor; [eexists; reflexivity |]). constructor. }
  split; [split; [reflexivity | split; [exact Himg | exact Hattrs]] |].
  eapply (crop_returns Toy.unloaded []);
    [reflexivity | exact Himg | reflexivity | reflexivity | reflexivity | reflexivity
    | exact Hattrs | discriminate].
Defined.

Lemma init_state_witness :
  Raster_init "landsat_B4_crop.tif" AttrsNone true None (mkSt tt [])
  = (Ok Toy.loaded,
     mkSt tt [EvOpenFile "landsat_B4_crop.tif"; EvMemoryFile; EvOpen; EvRead])
  /\ filename Toy.loaded = Some (abspath "landsat_B4_crop.tif")
  /\ isLoaded Toy.loaded = true.
Proof.
  split; [exact init_loaded |].
  destruct (init_state _ _ _ _ _ _ _ init_loaded) as (Hf & Hl & _). by split.
Defined.

Lemma init_missing_attribute_witness :
  (fs_open "landsat_B4_crop.tif" = Ok Toy.landsat
   /\ "altitude" ∈ ["altitude"]
   /\ ds_getattr Toy.landsat "altitude" = None)
  /\ exists a,
       (a ∈ ["altitude"] \/ a ∈ default_attrs)
       /\ ds_getattr Toy.landsat a = None
       /\ Raster_init "landsat_B4_crop.tif" (AttrsList ["altitude"]) false None (mkSt tt [])
          = (Err (Raise AttributeError a),
             mkSt tt ([] ++ [EvOpenFile "landsat_B4_crop.tif"; EvMemoryFile; EvOpen])).
Proof.
  assert ("altitude" ∈ ["altitude"]) as Hin by (by left).
  split; [split; [reflexivity | split; [exact Hin | reflexivity]] |].
  exact (init_missing_attribute "landsat_B4_crop.tif" ["altitude"] false None []
           Toy.landsat (Some Toy.landsat) Toy.landsat "altitude"
           eq_refl eq_refl eq_refl Hin eq_refl).
Defined.

Lemma init_tuple_attrs_raises_witness :
  ("count" ∈ default_attrs /\ "count" ∉ ["bounds"])
  /\ exists e,
       Raster_init "landsat_B4_crop.tif" (AttrsTuple ["bounds"]) false None (mkSt tt [])
       = (Err e, mkSt tt ([] ++ [EvOpenFile "landsat_B4_crop.tif"; EvMemoryFile; EvOpen]))
       /\ exn_class_of e = AttributeError.
Proof.
  assert ("count" ∈ default_attrs) as Hin by (right; by left).
  assert ("count" ∉ ["bounds"]) as Hnot.
  { rewrite not_elem_of_cons. split; [discriminate | apply not_elem_of_nil]. }
  split; [by split |].
  exact (init_tuple_attrs_raises "landsat_B4_crop.tif" ["bounds"] false None []
           Toy.landsat (Some Toy.landsat) Toy.landsat "count"
           eq_refl eq_refl eq_refl Hin Hnot).
Defined.

Lemma crop_match_extent_truncates_witness :
  crop Toy.extent "match_extent" (mkSt Toy.loaded [])
  = (Ok tt, snd (crop Toy.extent "match_extent" (mkSt Toy.loaded [])))
  /\ exists xmin ymin xmax ymax transform window qh qw new_height new_width metadata mf0 w,
       geom_bounds Toy.extent = Ok (xmin, ymin, xmax, ymax)
       /\ getattr Toy.loaded "transform" = Ok transform
       /\ windows_from_bounds xmin ymin xmax ymax transform = Ok window
       /\ height window = Finite qh /\ truncation new_height qh
       /\ width window = Finite qw /\ truncation new_width qw
       /\ MemoryFile_new = Ok mf0
       /\ memfile_create mf0 metadata = Ok w
       /\ metadata !! "height" = Some (VInt new_height)
       /\ metadata !! "width" = Some (VInt new_width).
Proof.
  assert (crop Toy.extent "match_extent" (mkSt Toy.loaded [])
          = (Ok tt, snd (crop Toy.extent "match_extent" (mkSt Toy.loaded [])))) as H.
  { apply run_Ok_eta. vm_compute. reflexivity. }
  split; [exact H |].
  exact (crop_match_extent_truncates Toy.loaded [] Toy.extent _ H).
Defined.

Lemma info_without_crs_raises_witness :
  (getattr Toy.no_crs "crs" = Ok VNone /\ forall x : Foreign, @VNone Foreign <> VForeign x)
  /\ exists e, info true Toy.no_crs = Err e /\ exn_class_of e = AttributeError.
Proof.
  assert (forall x : Foreign, @VNone Foreign <> VForeign x) as Hnot by discriminate.
  split; [split; [reflexivity | exact Hnot] |].
  exact (info_without_crs_raises Toy.no_crs true VNone eq_refl Hnot).
Defined.

Lemma info_stats_extend_summary_witness :
  info true Toy.loaded
  = Ok (match info true Toy.loaded with Ok s => s | Err _ => EmptyString end)
  /\ exists s t,
       info false Toy.loaded = Ok s
       /\ match info true Toy.loaded with Ok s => s | Err _ => EmptyString end = s +:+ t
       /\ (data Toy.loaded = None -> t = EmptyString).
Proof.
  assert (info true Toy.loaded
          = Ok (match info true Toy.loaded with Ok s => s | Err _ => EmptyString end)) as H.
  { apply result_eta. vm_compute. reflexivity. }
  split; [exact H |].
  exact (info_stats_extend_summary Toy.loaded _ H).
Defined.

Lemma reachable_invariant_witness :
  reachable Toy.loaded
  /\ mirror_ok Toy.loaded /\ buffer_ok Toy.loaded /\ is_Some (filename Toy.loaded).
Proof.
  assert (reachable Toy.loaded) as H.
  { exact (reach_init _ _ _ _ _ _ _ init_loaded). }
  split; [exact H |]. exact (reachable_invariant Toy.loaded H).
Defined.

Lemma str_ignores_buffer_witness :
  (filename Toy.unloaded = filename Toy.loaded /\ mirrored Toy.unloaded = mirrored Toy.loaded)
  /\ __str__ Toy.unloaded = __str__ Toy.loaded.
Proof.
  split; [split; reflexivity |].
  exact (str_ignores_buffer Toy.unloaded Toy.loaded eq_refl eq_refl).
Defined.

End MoreConcrete.
